(** * The [github:actions:dispatch] scaffolder action

    A shallow embedding of [createGithubActionsDispatchAction]'s [handler]:
    the action dispatches a GitHub Actions workflow, optionally waits for the
    run to be created and to complete, and optionally reads a JSON document
    out of one of the run's artifacts.

    The handler is sequential [async] code over a remote API.  It is embedded
    as a computation that produces the list of effects it performs (API
    requests, timers, log lines, action outputs) together with its completion:
    a returned value or a thrown error.  The remote side is a [World]: for
    every endpoint, the answer it gives to the handler. *)

From Stdlib Require Import String Ascii ZArith List Lia Bool Floats.
From Stdlib Require Import Decimal DecimalString.
Import ListNotations.
Open Scope string_scope.
Open Scope list_scope.
Open Scope Z_scope.

(** ** JavaScript values the handler touches *)

(** What [JSON.parse] can return.  Numbers are IEEE 754 doubles. *)
#[local] Set Warnings "-register-all".
Inductive JSValue : Type :=
| JNull
| JBool (b : bool)
| JNumber (x : float)
| JString (s : string)
| JArray (items : list JSValue)
| JObject (members : list (string * JSValue)).

(** [ToBoolean]: what [if (v)] tests. *)
Definition truthy (v : JSValue) : bool :=
  match v with
  | JNull => false
  | JBool b => b
  | JNumber x => negb (PrimFloat.eqb x 0%float || PrimFloat.is_nan x)
  | JString s => negb (String.eqb s EmptyString)
  | JArray _ => true
  | JObject _ => true
  end.

(** [ToBoolean] of a [string | undefined]. *)
Definition truthy_string (s : option string) : bool :=
  match s with
  | None => false
  | Some s => negb (String.eqb s EmptyString)
  end.

(** [a ?? b] on possibly-undefined strings. *)
Definition nullish {A : Type} (a b : option A) : option A :=
  match a with
  | Some v => Some v
  | None => b
  end.

(** [s === t] where [s] may be [null]. *)
Definition strict_eq (s : option string) (t : string) : bool :=
  match s with
  | Some s => String.eqb s t
  | None => false
  end.

(** [String.prototype.endsWith]. *)
Definition endsWith (s suffix : string) : bool :=
  let n := String.length s in
  let m := String.length suffix in
  (m <=? n)%nat && String.eqb (substring (n - m) m s) suffix.

(** Template literals: the pieces, joined. *)
Definition template (parts : list string) : string :=
  String.concat EmptyString parts.

(** [`${n}`] for an integer. *)
Definition show_Z (z : Z) : string := NilZero.string_of_int (Z.to_int z).
Definition show_nat (n : nat) : string := NilZero.string_of_uint (Nat.to_uint n).

(** [`${s}`] for a [string | null]. *)
Definition show_nullable (s : option string) : string :=
  match s with
  | Some s => s
  | None => "null"
  end.

(** Thrown values: [Error] objects, with [Error.prototype.toString]. *)
Record JsError : Type := mkJsError { error_name : string; error_message : string }.

Definition Error (message : string) : JsError := mkJsError "Error" message.

Definition toString (e : JsError) : string :=
  if String.eqb (error_name e) EmptyString then error_message e
  else if String.eqb (error_message e) EmptyString then error_name e
  else template [error_name e; ": "; error_message e].

(** [Array.prototype.sort] with a comparator: a stable sort, [a] before [b]
    when [cmp a b <= 0] and [a] came first. *)
Fixpoint sort_insert {A : Type} (cmp : A -> A -> Z) (x : A) (l : list A) : list A :=
  match l with
  | [] => [x]
  | y :: l' => if cmp x y <=? 0 then x :: y :: l' else y :: sort_insert cmp x l'
  end.

Definition sort {A : Type} (cmp : A -> A -> Z) (l : list A) : list A :=
  fold_right (sort_insert cmp) [] l.

(** ** The remote API *)

(** [workflowId: z.union([z.string(), z.number()])]: a workflow file name, or
    a workflow id, which is an integer. *)
Inductive WorkflowId : Type :=
| WorkflowFile (filename : string)
| WorkflowNumber (n : Z).

Definition show_workflowId (w : WorkflowId) : string :=
  match w with
  | WorkflowFile s => s
  | WorkflowNumber n => show_Z n
  end.

(** A workflow run as the API describes it.  [created_at] is the date-time
    string read as [+new Date(created_at)], milliseconds since the epoch. *)
Record WorkflowRun : Type := mkRun {
  run_id : Z;
  head_branch : option string;
  created_at : Z;
  status : option string;
  conclusion : option string
}.

Record Artifact : Type := mkArtifact {
  artifact_name : string;
  artifact_id : Z
}.

(** Completion of an awaited call: a value, or a thrown error. *)
Inductive Result (A : Type) : Type :=
| Ok (a : A)
| Throw (e : JsError).
Arguments Ok {A} a.
Arguments Throw {A} e.

(** The bytes of an archive or of one of its entries. *)
Definition Buffer : Type := string.

(** An entry of an opened archive: [file.path] and [await file.buffer()]. *)
Record ZipFile : Type := mkZipFile {
  path : string;
  buffer : Result Buffer
}.

(** The requests of [client.rest.actions], with the parameters the handler
    passes. *)
Inductive Request : Type :=
| CreateWorkflowDispatch (owner repo : string) (workflow_id : WorkflowId)
    (ref : string) (inputs : option (list (string * string)))
| ListWorkflowRuns (owner repo : string) (workflow_id : WorkflowId)
    (event branch : string) (per_page : Z)
| GetWorkflowRun (owner repo : string) (run_id : Z)
| ListWorkflowRunArtifacts (owner repo : string) (run_id : Z)
| DownloadArtifact (owner repo : string) (artifact_id : Z) (archive_format : string).

(** Everything the handler does that can be observed from outside.
    [NewOctokit token] stands for [new Octokit(getOctokitOptions(token))]:
    [getOctokitOptions] comes from [../util], which is not among the sources
    at hand; the event records the token it is given, and building the client
    is taken to make no request. *)
Inductive Event : Type :=
| NewOctokit (token : string)
| Call (request : Request)
| SetTimeout (ms : Z)
| LoggerInfo (msg : string)
| LoggerWarn (msg : string)
| Output (name : string) (value : JSValue).

(** What is outside the handler.  The handler is sequential, so the answer to
    the [i]-th listing (resp. the [attempt]-th status query) is a function of
    [i] and of the request; the other endpoints are called at most once.
    [unzipper.Open.buffer] and [JSON.parse] are library code, taken as
    given. *)
Record World : Type := mkWorld {
  createWorkflowDispatch : Request -> Result unit;
  listWorkflowRuns : nat -> Request -> Result (list WorkflowRun);
  getWorkflowRun : nat -> Request -> Result WorkflowRun;
  listWorkflowRunArtifacts : Request -> Result (list Artifact);
  downloadArtifact : Request -> Result Buffer;
  unzipper_Open_buffer : Buffer -> Result (list ZipFile);
  JSON_parse : string -> Result JSValue
}.

(** [process.env]. *)
Record Env : Type := mkEnv {
  GITHUB_TOKEN : option string;
  GH_TOKEN : option string
}.

(** [ctx.input], after the schema. *)
Record Input : Type := mkInput {
  owner : string;
  repo : string;
  workflowId : WorkflowId;
  branchOrTagName : string;
  workflowInputs : option (list (string * string));
  token : option string;
  waitForCompletion : option bool;
  outputArtifactName : option string
}.

(** ** Computations: effects performed, then a completion *)

Definition M (A : Type) : Type := (list Event * Result A)%type.

Definition ret {A : Type} (a : A) : M A := ([], Ok a).

Definition throw {A : Type} (e : JsError) : M A := ([], Throw e).

Definition bind {A B : Type} (m : M A) (f : A -> M B) : M B :=
  match m with
  | (t, Ok a) => let (t', r) := f a in (t ++ t', r)
  | (t, Throw e) => (t, Throw e)
  end.

(** [try { m } catch (error) { h error }]. *)
Definition try_catch {A : Type} (m : M A) (h : JsError -> M A) : M A :=
  match m with
  | (t, Ok a) => (t, Ok a)
  | (t, Throw e) => let (t', r) := h e in (t ++ t', r)
  end.

Definition emit (e : Event) : M unit := ([e], Ok tt).

(** [await client.rest.actions.f(request)]. *)
Definition await {A : Type} (request : Request) (answer : Request -> Result A) : M A :=
  ([Call request], answer request).

(** A library call that is not a request. *)
Definition lift {A : Type} (r : Result A) : M A := ([], r).

Definition trace {A : Type} (m : M A) : list Event := fst m.
Definition completion {A : Type} (m : M A) : Result A := snd m.

Declare Scope js_scope.
Delimit Scope js_scope with js.
Notation "x <- m ;; k" := (bind m (fun x => k))
  (at level 61, m at next level, right associativity) : js_scope.
Notation "m ;; k" := (bind m (fun _ => k))
  (at level 61, right associativity) : js_scope.
Open Scope js_scope.

Definition logger_info (msg : string) : M unit := emit (LoggerInfo msg).
Definition logger_warn (msg : string) : M unit := emit (LoggerWarn msg).
Definition output (name : string) (value : JSValue) : M unit := emit (Output name value).
(** [await new Promise(res => setTimeout(res, ms))]. *)
Definition setTimeout (ms : Z) : M unit := emit (SetTimeout ms).

(** ** The handler *)

Definition maxRunPollAttempts : nat := 12.
Definition maxPollAttempts : nat := 60.
Definition pollIntervalMs : Z := 5000.

(** The errors of the handler, under the names the specification gives
    them. *)
Definition MissingCredentialError : JsError :=
  Error "A GitHub token must be provided in input or environment variables".
Definition RunNotFoundError : JsError :=
  Error "Unable to find workflow run for dispatch".
Definition DispatchTimeoutError : JsError :=
  Error "Timed out waiting for workflow completion".

(** [(a, b) => +new Date(b.created_at) - +new Date(a.created_at)]. *)
Definition byCreatedAtDesc (a b : WorkflowRun) : Z := created_at b - created_at a.

(** [data.workflow_runs.filter(...).sort(...)[0]]. *)
Definition selectRun (branchOrTagName : string) (workflow_runs : list WorkflowRun)
  : option WorkflowRun :=
  hd_error
    (sort byCreatedAtDesc
       (filter (fun run => strict_eq (head_branch run) branchOrTagName) workflow_runs)).

(** [const token = providedToken ?? process.env.GITHUB_TOKEN ?? process.env.GH_TOKEN]. *)
Definition resolveToken (env : Env) (providedToken : option string) : option string :=
  nullish (nullish providedToken (GITHUB_TOKEN env)) (GH_TOKEN env).

(** [artifactsData.artifacts.find(a => a.name === outputArtifactName)]. *)
Definition findArtifact (name : string) (artifactsData : list Artifact) : option Artifact :=
  find (fun a => String.eqb (artifact_name a) name) artifactsData.

Section Handler.

Variable env : Env.
Variable w : World.
Variable input : Input.

Definition listRunsRequest : Request :=
  ListWorkflowRuns (owner input) (repo input) (workflowId input)
    "workflow_dispatch" (branchOrTagName input) 5.

(** The run-discovery loop: [n] iterations left, loop variable [i]. *)
Fixpoint findWorkflowRun (n i : nat) : M (option WorkflowRun) :=
  match n with
  | O => ret None
  | S n' =>
      data <- await listRunsRequest (listWorkflowRuns w i) ;;
      match selectRun (branchOrTagName input) data with
      | Some workflowRun => ret (Some workflowRun)
      | None =>
          logger_info "Workflow run not found yet, retrying in 5 seconds..." ;;
          setTimeout 5000 ;;
          findWorkflowRun n' (S i)
      end
  end.

(** The completion loop: [n] iterations left, loop variable [attempt];
    returns [(completed, runData)]. *)
Fixpoint pollWorkflowRun (runId : Z) (runData : WorkflowRun) (n attempt : nat)
  : M (bool * WorkflowRun) :=
  match n with
  | O => ret (false, runData)
  | S n' =>
      run <- await (GetWorkflowRun (owner input) (repo input) runId)
               (getWorkflowRun w attempt) ;;
      if strict_eq (status run) "completed" then ret (true, run)
      else
        logger_info
          (template ["Attempt "; show_nat (attempt + 1);
                     ": Workflow status = "; show_nullable (status run);
                     ", waiting "; show_Z (pollIntervalMs / 1000); "s..."]) ;;
        setTimeout pollIntervalMs ;;
        pollWorkflowRun runId runData n' (S attempt)
  end.

(** [for (const file of directory.files)]: the value of [outputJson] after
    the loop, [None] for [undefined]. *)
Fixpoint scanFiles (files : list ZipFile) : M (option JSValue) :=
  match files with
  | [] => ret None
  | file :: rest =>
      if endsWith (path file) ".json" then
        content <- lift (buffer file) ;;
        outputJson <- lift (JSON_parse w content) ;;
        ret (Some outputJson)
      else scanFiles rest
  end.

(** The [try { ... } catch (error) { ... }] block. *)
Definition extractOutput (zipData : Buffer) : M unit :=
  try_catch
    (directory <- lift (unzipper_Open_buffer w zipData) ;;
     outputJson <- scanFiles directory ;;
     match outputJson with
     | Some v =>
         if truthy v then
           logger_info "Output artifact JSON parsed successfully" ;;
           output "outputs" v
         else logger_warn "No JSON file found inside output artifact ZIP"
     | None => logger_warn "No JSON file found inside output artifact ZIP"
     end)
    (fun error =>
       logger_warn
         (template ["Failed to extract or parse output artifact: "; toString error])).

(** From [if (!outputArtifactName) return;] to the end. *)
Definition fetchOutputArtifact (runId : Z) : M unit :=
  match outputArtifactName input with
  | None => ret tt
  | Some outputArtifactName =>
      if String.eqb outputArtifactName EmptyString then ret tt
      else
        logger_info
          (template ["Fetching output artifact '"; outputArtifactName;
                     "' for run "; show_Z runId]) ;;
        artifactsData <- await (ListWorkflowRunArtifacts (owner input) (repo input) runId)
                           (listWorkflowRunArtifacts w) ;;
        match findArtifact outputArtifactName artifactsData with
        | None =>
            logger_warn (template ["Artifact '"; outputArtifactName; "' not found"])
        | Some artifact =>
            zipData <- await (DownloadArtifact (owner input) (repo input)
                                (artifact_id artifact) "zip")
                         (downloadArtifact w) ;;
            extractOutput zipData
        end
  end.

(** From [Waiting for workflow run to be created...] to the end. *)
Definition awaitCompletion : M unit :=
  logger_info "Waiting for workflow run to be created..." ;;
  workflowRun <- findWorkflowRun maxRunPollAttempts 0 ;;
  match workflowRun with
  | None => throw RunNotFoundError
  | Some workflowRun =>
      let runId := run_id workflowRun in
      logger_info (template ["Found workflow run: "; show_Z runId]) ;;
      logger_info "Polling workflow run for completion..." ;;
      polled <- pollWorkflowRun runId workflowRun maxPollAttempts 0 ;;
      let '(completed, runData) := polled in
      if negb completed then throw DispatchTimeoutError
      else
        logger_info
          (template ["Workflow run completed with conclusion: ";
                     show_nullable (conclusion runData)]) ;;
        output "conclusion"
          (match conclusion runData with Some c => JString c | None => JNull end) ;;
        fetchOutputArtifact runId
  end.

Definition handler : M unit :=
  let providedToken := token input in
  let waitForCompletion :=
    match waitForCompletion input with Some b => b | None => false end in
  let token := resolveToken env providedToken in
  match token with
  | None => throw MissingCredentialError
  | Some token =>
      if String.eqb token EmptyString then throw MissingCredentialError
      else
        emit (NewOctokit token) ;;
        logger_info
          (template ["Dispatching GitHub workflow "; show_workflowId (workflowId input);
                     " on "; owner input; "/"; repo input; "@"; branchOrTagName input]) ;;
        await (CreateWorkflowDispatch (owner input) (repo input) (workflowId input)
                 (branchOrTagName input) (workflowInputs input))
          (createWorkflowDispatch w) ;;
        logger_info
          (template ["Workflow "; show_workflowId (workflowId input);
                     " dispatched successfully"]) ;;
        if negb waitForCompletion then
          logger_info "Not waiting for completion (waitForCompletion is false)"
        else awaitCompletion
  end.

End Handler.

(** ** What the statements below talk about *)

Definition isDispatch (r : Request) : bool :=
  match r with CreateWorkflowDispatch _ _ _ _ _ => true | _ => false end.
Definition isListRuns (r : Request) : bool :=
  match r with ListWorkflowRuns _ _ _ _ _ _ => true | _ => false end.
Definition isGetRun (r : Request) : bool :=
  match r with GetWorkflowRun _ _ _ => true | _ => false end.
Definition isListArtifacts (r : Request) : bool :=
  match r with ListWorkflowRunArtifacts _ _ _ => true | _ => false end.
Definition isDownload (r : Request) : bool :=
  match r with DownloadArtifact _ _ _ _ => true | _ => false end.

(** The requests of a trace, in order. *)
Fixpoint requests (t : list Event) : list Request :=
  match t with
  | [] => []
  | Call r :: t' => r :: requests t'
  | _ :: t' => requests t'
  end.

(** How many requests of a kind a trace makes. *)
Definition calls (kind : Request -> bool) (t : list Event) : nat :=
  List.length (filter kind (requests t)).

(** The delays of a trace, in order. *)
Fixpoint timers (t : list Event) : list Z :=
  match t with
  | [] => []
  | SetTimeout ms :: t' => ms :: timers t'
  | _ :: t' => timers t'
  end.

(** The values given to [ctx.output] under a name. *)
Fixpoint outputs_of (name : string) (t : list Event) : list JSValue :=
  match t with
  | [] => []
  | Output n v :: t' =>
      if String.eqb n name then v :: outputs_of name t' else outputs_of name t'
  | _ :: t' => outputs_of name t'
  end.

(** The warnings of a trace, in order. *)
Fixpoint warnings (t : list Event) : list string :=
  match t with
  | [] => []
  | LoggerWarn msg :: t' => msg :: warnings t'
  | _ :: t' => warnings t'
  end.

(** The token the client was built with. *)
Definition clientToken (t : list Event) : option string :=
  match t with
  | NewOctokit token :: _ => Some token
  | _ => None
  end.

(** [per_page] of a listing request. *)
Definition per_page_of (r : Request) : option Z :=
  match r with
  | ListWorkflowRuns _ _ _ _ _ per_page => Some per_page
  | _ => None
  end.

Definition dispatchRequest (input : Input) : Request :=
  CreateWorkflowDispatch (owner input) (repo input) (workflowId input)
    (branchOrTagName input) (workflowInputs input).

Definition getRunRequest (input : Input) (runId : Z) : Request :=
  GetWorkflowRun (owner input) (repo input) runId.

Definition listArtifactsRequest (input : Input) (runId : Z) : Request :=
  ListWorkflowRunArtifacts (owner input) (repo input) runId.

Definition downloadRequest (input : Input) (artifact : Artifact) : Request :=
  DownloadArtifact (owner input) (repo input) (artifact_id artifact) "zip".

(** The handler's effects up to and including the dispatch. *)
Definition dispatchEvents (token : string) (input : Input) : list Event :=
  [ NewOctokit token;
    LoggerInfo
      (template ["Dispatching GitHub workflow "; show_workflowId (workflowId input);
                 " on "; owner input; "/"; repo input; "@"; branchOrTagName input]);
    Call (dispatchRequest input);
    LoggerInfo
      (template ["Workflow "; show_workflowId (workflowId input);
                 " dispatched successfully"]) ].

(** One unsuccessful round of run discovery. *)
Definition discoveryRound (input : Input) : list Event :=
  [ Call (listRunsRequest input);
    LoggerInfo "Workflow run not found yet, retrying in 5 seconds...";
    SetTimeout 5000 ].

(** One unsuccessful round of completion polling, with its log line. *)
Definition pollRound (input : Input) (runId : Z) (msg : string) : list Event :=
  [ Call (getRunRequest input runId); LoggerInfo msg; SetTimeout 5000 ].

(** A usable credential: the resolved token is a non-empty string. *)
Definition credential (env : Env) (input : Input) (tok : string) : Prop :=
  resolveToken env (token input) = Some tok /\ tok <> EmptyString.

(** The dispatch request went through. *)
Definition triggered (w : World) (input : Input) : Prop :=
  createWorkflowDispatch w (dispatchRequest input) = Ok tt.

(** The [i]-th listing answers, with no run on the requested ref. *)
Definition noMatchAt (w : World) (input : Input) (i : nat) : Prop :=
  exists data,
    listWorkflowRuns w i (listRunsRequest input) = Ok data /\
    forall run, In run data -> head_branch run <> Some (branchOrTagName input).

(** The [attempt]-th status query answers, with a run not yet completed. *)
Definition pendingAt (w : World) (input : Input) (runId : Z) (attempt : nat) : Prop :=
  exists run,
    getWorkflowRun w attempt (getRunRequest input runId) = Ok run /\
    status run <> Some "completed".

(** The credential as the specification words it: the explicit token when
    given, otherwise the first non-empty of [GITHUB_TOKEN], [GH_TOKEN]. *)
Definition spec_credential (env : Env) (providedToken : option string) : option string :=
  match providedToken with
  | Some t => Some t
  | None =>
      if truthy_string (GITHUB_TOKEN env) then GITHUB_TOKEN env
      else if truthy_string (GH_TOKEN env) then GH_TOKEN env
      else None
  end.

(** The first entry of an archive whose path ends in [.json]. *)
Definition firstJson (files : list ZipFile) : option ZipFile :=
  find (fun file => endsWith (path file) ".json") files.

(** The events a polling loop on one request can produce. *)
Definition loopEvent (allowed : Request) (e : Event) : Prop :=
  match e with
  | Call r => r = allowed
  | SetTimeout ms => ms = 5000
  | LoggerInfo _ => True
  | _ => False
  end.

(** The events the artifact phase can produce. *)
Definition fetchEvent (e : Event) : Prop :=
  match e with
  | Call r => isListArtifacts r || isDownload r = true
  | LoggerInfo _ => True
  | LoggerWarn _ => True
  | Output name _ => name = "outputs"
  | _ => False
  end.

(** The handler's effects once the run is found. *)
Definition foundEvents (workflowRun : WorkflowRun) : list Event :=
  [ LoggerInfo (template ["Found workflow run: "; show_Z (run_id workflowRun)]);
    LoggerInfo "Polling workflow run for completion..." ].

(** The handler's effects once the run is seen completed. *)
Definition conclusionValue (runData : WorkflowRun) : JSValue :=
  match conclusion runData with
  | Some c => JString c
  | None => JNull
  end.

Definition conclusionEvents (runData : WorkflowRun) : list Event :=
  [ LoggerInfo
      (template ["Workflow run completed with conclusion: ";
                 show_nullable (conclusion runData)]);
    Output "conclusion" (conclusionValue runData) ].

(** How reading the output out of a downloaded archive can go wrong: the
    archive does not open, it has no [.json] entry, the entry cannot be read,
    or its text is not JSON. *)
Inductive ArchiveFailure (w : World) (zipData : Buffer) : Prop :=
| ArchiveOpenFails (e : JsError) :
    unzipper_Open_buffer w zipData = Throw e -> ArchiveFailure w zipData
| NoJsonEntry (files : list ZipFile) :
    unzipper_Open_buffer w zipData = Ok files ->
    firstJson files = None -> ArchiveFailure w zipData
| EntryReadFails (files : list ZipFile) (file : ZipFile) (e : JsError) :
    unzipper_Open_buffer w zipData = Ok files ->
    firstJson files = Some file ->
    buffer file = Throw e -> ArchiveFailure w zipData
| JsonParseFails (files : list ZipFile) (file : ZipFile) (content : Buffer) (e : JsError) :
    unzipper_Open_buffer w zipData = Ok files ->
    firstJson files = Some file ->
    buffer file = Ok content ->
    JSON_parse w content = Throw e -> ArchiveFailure w zipData.

(** The extraction of the output fails: the artifact is not listed, or it is
    downloaded and reading it goes wrong. *)
Inductive ExtractionFailure (w : World) (input : Input) (name : string)
  (artifactsData : list Artifact) : Prop :=
| ArtifactAbsent :
    findArtifact name artifactsData = None ->
    ExtractionFailure w input name artifactsData
| ArchiveUnreadable (artifact : Artifact) (zipData : Buffer) :
    findArtifact name artifactsData = Some artifact ->
    downloadArtifact w (downloadRequest input artifact) = Ok zipData ->
    ArchiveFailure w zipData ->
    ExtractionFailure w input name artifactsData.

(** The effects of the artifact phase up to the lookup by name. *)
Definition lookupEvents (input : Input) (runId : Z) (name : string) : list Event :=
  [ LoggerInfo (template ["Fetching output artifact '"; name; "' for run "; show_Z runId]);
    Call (listArtifactsRequest input runId) ].

(** The first of the candidates that is set, empty or not. *)
Definition firstSet (candidates : list (option string)) : option string :=
  match find (fun c => match c with Some _ => true | None => false end) candidates with
  | Some c => c
  | None => None
  end.

(** The handler's effects up to the moment it looks for the artifact. *)
Definition reachedEvents (tok : string) (input : Input) (t : list Event)
  (workflowRun : WorkflowRun) (t2 : list Event) (runData : WorkflowRun) : list Event :=
  dispatchEvents tok input
    ++ LoggerInfo "Waiting for workflow run to be created..." :: t
    ++ foundEvents workflowRun ++ t2 ++ conclusionEvents runData.

(** A listing service that answers a request with the first [per_page] of
    the runs it holds. *)
Definition pageOf (request : Request) (held : list WorkflowRun) : list WorkflowRun :=
  match per_page_of request with
  | Some per_page => firstn (Z.to_nat per_page) held
  | None => held
  end.

(** ** A scenario to run the handler on *)

Module Demo.

Definition env : Env := mkEnv None None.

Definition input : Input :=
  mkInput "backstage" "demo" (WorkflowFile "ci.yml") "main" None
    (Some "ghp_token") (Some true) (Some "result").

(** The same request, not waiting. *)
Definition fireAndForget : Input :=
  mkInput "backstage" "demo" (WorkflowFile "ci.yml") "main" None
    (Some "ghp_token") None None.

(** The same request, with no token of its own. *)
Definition anonymous : Input :=
  mkInput "backstage" "demo" (WorkflowFile "ci.yml") "main" None
    None (Some true) (Some "result").

Definition run (id created : Z) (branch state : string) : WorkflowRun :=
  mkRun id (Some branch) created (Some state) None.

Definition completedRun : WorkflowRun :=
  mkRun 7 (Some "main") 100 (Some "completed") (Some "success").

(** A remote side that accepts the dispatch, lists [listing i] at the
    [i]-th listing, reports [polled a] at the [a]-th status query, has one
    artifact [result], and whose archive downloads, opens and parses as
    given. *)
Definition world (listing : nat -> list WorkflowRun) (polled : nat -> WorkflowRun)
  (download : Result Buffer) (opened : Result (list ZipFile)) (parsed : Result JSValue)
  : World :=
  mkWorld (fun _ => Ok tt) (fun i _ => Ok (listing i)) (fun a _ => Ok (polled a))
    (fun _ => Ok [mkArtifact "result" 3]) (fun _ => download)
    (fun _ => opened) (fun _ => parsed).

(** The run appears at the second listing and completes at the third query. *)
Definition listing (i : nat) : list WorkflowRun :=
  if (i <? 1)%nat then [] else [run 7 100 "main" "queued"].

Definition polled (a : nat) : WorkflowRun :=
  if (a <? 2)%nat then run 7 100 "main" "in_progress" else completedRun.

Definition archive : list ZipFile :=
  [mkZipFile "README.txt" (Ok "hello"); mkZipFile "result.json" (Ok "0")].

(** The run the handler finds with [listing]. *)
Definition discovered : WorkflowRun := run 7 100 "main" "queued".

(** The remote side of the scenario; the archive's document is [0]. *)
Definition remote : World :=
  world listing polled (Ok "zip") (Ok archive) (Ok (JNumber 0%float)).

(** The same, with a run that stays in progress. *)
Definition stuck : World :=
  world listing (fun _ => run 7 100 "main" "in_progress") (Ok "zip") (Ok archive)
    (Ok (JNumber 0%float)).

(** A first listing without the ref, then one with three runs on it. *)
Definition crowded (i : nat) : list WorkflowRun :=
  if (i <? 1)%nat then [run 3 50 "develop" "queued"]
  else [run 1 10 "main" "completed"; run 2 30 "main" "queued";
        run 3 50 "develop" "queued"; run 4 20 "main" "queued"].

Definition busy : World :=
  world crowded polled (Ok "zip") (Ok archive) (Ok (JNumber 0%float)).

(** The same as [remote], with an archive that does not open. *)
Definition corrupt : World :=
  world listing polled (Ok "zip") (Throw (Error "invalid central directory"))
    (Ok (JNumber 0%float)).

(** The same as [remote], with a download that fails. *)
Definition offline : World :=
  world listing polled (Throw (mkJsError "HttpError" "Server Error"))
    (Ok archive) (Ok (JNumber 0%float)).

(** The handler's effects on [remote] before it looks for the artifact. *)
Definition discovery : list Event :=
  discoveryRound input ++ [Call (listRunsRequest input)].

Definition polling : list Event :=
  pollRound input 7 "Attempt 1: Workflow status = in_progress, waiting 5s..."
    ++ pollRound input 7 "Attempt 2: Workflow status = in_progress, waiting 5s..."
    ++ [Call (getRunRequest input 7)].

(** A remote side whose listing is a page of what it holds. *)
Definition service (held : list WorkflowRun) : World :=
  mkWorld (fun _ => Ok tt) (fun _ request => Ok (pageOf request held))
    (fun a _ => Ok (polled a)) (fun _ => Ok [mkArtifact "result" 3])
    (fun _ => Ok "zip") (fun _ => Ok archive) (fun _ => Ok (JNumber 0%float)).

(** The run the dispatch created, listed sixth. *)
Definition dispatched : WorkflowRun := run 16 60 "main" "queued".

(** Five earlier runs on the same ref, then the dispatched one. *)
Definition backlog : list WorkflowRun :=
  [run 11 10 "main" "completed"; run 12 20 "main" "completed";
   run 13 30 "main" "completed"; run 14 40 "main" "completed";
   run 15 50 "main" "completed"; dispatched].

(** Five runs on another ref, then the dispatched one. *)
Definition elsewhere : list WorkflowRun :=
  [run 21 10 "develop" "completed"; run 22 20 "develop" "completed";
   run 23 30 "develop" "completed"; run 24 40 "develop" "completed";
   run 25 50 "develop" "completed"; dispatched].

(** [GITHUB_TOKEN] set but empty, [GH_TOKEN] holding a token. *)
Definition emptyFirst : Env := mkEnv (Some EmptyString) (Some "ghp_fallback").

End Demo.

(** ** Every way the handler can go *)

(** The two ways the guarded block ends: with one warning, or with the
    document of the first [.json] entry given to [ctx.output]. *)
Inductive Extracted (w : World) (zipData : Buffer) : M unit -> Prop :=
| ExtractedWarning (msg : string) :
    Extracted w zipData ([LoggerWarn msg], Ok tt)
| ExtractedOutputs (files : list ZipFile) (file : ZipFile) (content : Buffer)
    (v : JSValue) :
    unzipper_Open_buffer w zipData = Ok files ->
    firstJson files = Some file ->
    buffer file = Ok content ->
    JSON_parse w content = Ok v ->
    truthy v = true ->
    Extracted w zipData
      ([LoggerInfo "Output artifact JSON parsed successfully"; Output "outputs" v],
       Ok tt).

(** The ways the artifact phase ends. *)
Inductive Fetched (w : World) (input : Input) (runId : Z) : M unit -> Prop :=
| FetchedNothing :
    truthy_string (outputArtifactName input) = false ->
    Fetched w input runId ([], Ok tt)
| FetchedListFails (name : string) (e : JsError) :
    outputArtifactName input = Some name ->
    name <> EmptyString ->
    listWorkflowRunArtifacts w (listArtifactsRequest input runId) = Throw e ->
    Fetched w input runId (lookupEvents input runId name, Throw e)
| FetchedAbsent (name : string) (artifactsData : list Artifact) :
    outputArtifactName input = Some name ->
    name <> EmptyString ->
    listWorkflowRunArtifacts w (listArtifactsRequest input runId) = Ok artifactsData ->
    findArtifact name artifactsData = None ->
    Fetched w input runId
      (lookupEvents input runId name
         ++ [LoggerWarn (template ["Artifact '"; name; "' not found"])],
       Ok tt)
| FetchedDownloadFails (name : string) (artifactsData : list Artifact)
    (artifact : Artifact) (e : JsError) :
    outputArtifactName input = Some name ->
    name <> EmptyString ->
    listWorkflowRunArtifacts w (listArtifactsRequest input runId) = Ok artifactsData ->
    findArtifact name artifactsData = Some artifact ->
    downloadArtifact w (downloadRequest input artifact) = Throw e ->
    Fetched w input runId
      (lookupEvents input runId name ++ [Call (downloadRequest input artifact)],
       Throw e)
| FetchedArchive (name : string) (artifactsData : list Artifact)
    (artifact : Artifact) (zipData : Buffer) (m : M unit) :
    outputArtifactName input = Some name ->
    name <> EmptyString ->
    listWorkflowRunArtifacts w (listArtifactsRequest input runId) = Ok artifactsData ->
    findArtifact name artifactsData = Some artifact ->
    downloadArtifact w (downloadRequest input artifact) = Ok zipData ->
    Extracted w zipData m ->
    Fetched w input runId
      (lookupEvents input runId name ++ [Call (downloadRequest input artifact)]
         ++ trace m,
       Ok tt).

(** The ways the waiting part of the handler ends. *)
Inductive Awaited (w : World) (input : Input) : M unit -> Prop :=
| AwaitedListFails (t : list Event) (e : JsError) :
    findWorkflowRun w input maxRunPollAttempts 0 = (t, Throw e) ->
    Awaited w input
      (LoggerInfo "Waiting for workflow run to be created..." :: t, Throw e)
| AwaitedNotFound (t : list Event) :
    findWorkflowRun w input maxRunPollAttempts 0 = (t, Ok None) ->
    Awaited w input
      (LoggerInfo "Waiting for workflow run to be created..." :: t,
       Throw RunNotFoundError)
| AwaitedPollFails (t t2 : list Event) (workflowRun : WorkflowRun) (e : JsError) :
    findWorkflowRun w input maxRunPollAttempts 0 = (t, Ok (Some workflowRun)) ->
    pollWorkflowRun w input (run_id workflowRun) workflowRun maxPollAttempts 0
    = (t2, Throw e) ->
    Awaited w input
      (LoggerInfo "Waiting for workflow run to be created..." :: t
         ++ foundEvents workflowRun ++ t2,
       Throw e)
| AwaitedTimeout (t t2 : list Event) (workflowRun rd : WorkflowRun) :
    findWorkflowRun w input maxRunPollAttempts 0 = (t, Ok (Some workflowRun)) ->
    pollWorkflowRun w input (run_id workflowRun) workflowRun maxPollAttempts 0
    = (t2, Ok (false, rd)) ->
    Awaited w input
      (LoggerInfo "Waiting for workflow run to be created..." :: t
         ++ foundEvents workflowRun ++ t2,
       Throw DispatchTimeoutError)
| AwaitedCompleted (t t2 : list Event) (workflowRun runData : WorkflowRun) :
    findWorkflowRun w input maxRunPollAttempts 0 = (t, Ok (Some workflowRun)) ->
    pollWorkflowRun w input (run_id workflowRun) workflowRun maxPollAttempts 0
    = (t2, Ok (true, runData)) ->
    Awaited w input
      (LoggerInfo "Waiting for workflow run to be created..." :: t
         ++ foundEvents workflowRun ++ t2 ++ conclusionEvents runData
         ++ trace (fetchOutputArtifact w input (run_id workflowRun)),
       completion (fetchOutputArtifact w input (run_id workflowRun))).

(** The ways the handler ends. *)
Inductive Handled (env : Env) (w : World) (input : Input) : M unit -> Prop :=
| HandledNoToken :
    truthy_string (resolveToken env (token input)) = false ->
    Handled env w input ([], Throw MissingCredentialError)
| HandledDispatchFails (tok : string) (e : JsError) :
    credential env input tok ->
    createWorkflowDispatch w (dispatchRequest input) = Throw e ->
    Handled env w input (removelast (dispatchEvents tok input), Throw e)
| HandledNoWait (tok : string) :
    credential env input tok ->
    triggered w input ->
    waitForCompletion input = None \/ waitForCompletion input = Some false ->
    Handled env w input
      (dispatchEvents tok input
         ++ [LoggerInfo "Not waiting for completion (waitForCompletion is false)"],
       Ok tt)
| HandledWaited (tok : string) :
    credential env input tok ->
    triggered w input ->
    waitForCompletion input = Some true ->
    Handled env w input
      (dispatchEvents tok input ++ trace (awaitCompletion w input),
       completion (awaitCompletion w input)).

(** An error [e] thrown by one of the requests the handler can make. *)
Definition apiRejects (w : World) (input : Input) (e : JsError) : Prop :=
  createWorkflowDispatch w (dispatchRequest input) = Throw e \/
  (exists i, (i < 12)%nat /\ listWorkflowRuns w i (listRunsRequest input) = Throw e) \/
  (exists a runId, (a < 60)%nat /\
     getWorkflowRun w a (getRunRequest input runId) = Throw e) \/
  (exists runId,
     listWorkflowRunArtifacts w (listArtifactsRequest input runId) = Throw e) \/
  (exists artifact, downloadArtifact w (downloadRequest input artifact) = Throw e).

(** The sum of the delays of a trace, in milliseconds. *)
Definition totalDelay (t : list Event) : Z := fold_right Z.add 0 (timers t).

(** ** The warnings and their causes *)

Definition failureMessage (e : JsError) : string :=
  template ["Failed to extract or parse output artifact: "; toString e].

Definition noJsonMessage : string := "No JSON file found inside output artifact ZIP".

Definition notFoundMessage (name : string) : string :=
  template ["Artifact '"; name; "' not found"].

(** What reading a downloaded archive warns about, by cause. *)
Inductive ArchiveWarning (w : World) (zipData : Buffer) : string -> Prop :=
| WarnOpen (e : JsError) :
    unzipper_Open_buffer w zipData = Throw e ->
    ArchiveWarning w zipData (failureMessage e)
| WarnNoJson (files : list ZipFile) :
    unzipper_Open_buffer w zipData = Ok files ->
    firstJson files = None ->
    ArchiveWarning w zipData noJsonMessage
| WarnRead (files : list ZipFile) (file : ZipFile) (e : JsError) :
    unzipper_Open_buffer w zipData = Ok files ->
    firstJson files = Some file ->
    buffer file = Throw e ->
    ArchiveWarning w zipData (failureMessage e)
| WarnParse (files : list ZipFile) (file : ZipFile) (content : Buffer) (e : JsError) :
    unzipper_Open_buffer w zipData = Ok files ->
    firstJson files = Some file ->
    buffer file = Ok content ->
    JSON_parse w content = Throw e ->
    ArchiveWarning w zipData (failureMessage e)
| WarnFalsy (files : list ZipFile) (file : ZipFile) (content : Buffer) (v : JSValue) :
    unzipper_Open_buffer w zipData = Ok files ->
    firstJson files = Some file ->
    buffer file = Ok content ->
    JSON_parse w content = Ok v ->
    truthy v = false ->
    ArchiveWarning w zipData noJsonMessage.

(** What the artifact phase warns about, by cause. *)
Inductive ExtractionWarning (w : World) (input : Input) (name : string)
  (artifactsData : list Artifact) : string -> Prop :=
| WarnAbsent :
    findArtifact name artifactsData = None ->
    ExtractionWarning w input name artifactsData (notFoundMessage name)
| WarnArchive (artifact : Artifact) (zipData : Buffer) (msg : string) :
    findArtifact name artifactsData = Some artifact ->
    downloadArtifact w (downloadRequest input artifact) = Ok zipData ->
    ArchiveWarning w zipData msg ->
    ExtractionWarning w input name artifactsData msg.

(** ** Remote sides that fail *)

Module Faults.

Definition httpError : JsError := mkJsError "HttpError" "Server Error".

(** A remote side given endpoint by endpoint, with the scenario's archive. *)
Definition remote (dispatch : Result unit)
  (listing : nat -> Result (list WorkflowRun)) (polled : nat -> Result WorkflowRun)
  (artifacts : Result (list Artifact)) (download : Result Buffer)
  (parsed : Result JSValue) : World :=
  mkWorld (fun _ => dispatch) (fun i _ => listing i) (fun a _ => polled a)
    (fun _ => artifacts) (fun _ => download)
    (fun _ => Ok Demo.archive) (fun _ => parsed).

(** The dispatch request is rejected. *)
Definition noDispatch : World :=
  remote (Throw httpError) (fun i => Ok (Demo.listing i)) (fun a => Ok (Demo.polled a))
    (Ok [mkArtifact "result" 3]) (Ok "zip") (Ok (JNumber 1%float)).

(** The second listing is rejected. *)
Definition noListing : World :=
  remote (Ok tt) (fun i => if (i <? 1)%nat then Ok [] else Throw httpError)
    (fun a => Ok (Demo.polled a)) (Ok [mkArtifact "result" 3]) (Ok "zip")
    (Ok (JNumber 1%float)).

(** The second status query is rejected. *)
Definition noStatus : World :=
  remote (Ok tt) (fun i => Ok (Demo.listing i))
    (fun a => if (a <? 1)%nat then Ok (Demo.polled a) else Throw httpError)
    (Ok [mkArtifact "result" 3]) (Ok "zip") (Ok (JNumber 1%float)).

(** The artifact listing is rejected. *)
Definition noArtifacts : World :=
  remote (Ok tt) (fun i => Ok (Demo.listing i)) (fun a => Ok (Demo.polled a))
    (Throw httpError) (Ok "zip") (Ok (JNumber 1%float)).

(** Nothing fails, two artifacts are called [result], and the document of
    the archive is [{"x": 1}]. *)
Definition healthy : World :=
  remote (Ok tt) (fun i => Ok (Demo.listing i)) (fun a => Ok (Demo.polled a))
    (Ok [mkArtifact "logs" 2; mkArtifact "result" 3; mkArtifact "result" 4])
    (Ok "zip") (Ok (JObject [("x", JNumber 1%float)])).

(** The scenario's request without an artifact name, and with an empty one. *)
Definition unnamed : Input :=
  mkInput "backstage" "demo" (WorkflowFile "ci.yml") "main" None
    (Some "ghp_token") (Some true) None.

Definition emptyName : Input :=
  mkInput "backstage" "demo" (WorkflowFile "ci.yml") "main" None
    (Some "ghp_token") (Some true) (Some EmptyString).

(** Two runs on the ref created at the same instant, between an older and a
    newer run on another ref. *)
Definition tied : list WorkflowRun :=
  [Demo.run 1 10 "main" "queued"; Demo.run 2 30 "main" "queued";
   Demo.run 3 30 "main" "queued"; Demo.run 4 90 "develop" "queued"].

End Faults.

(** ** Computations *)

Lemma bind_Ok {A B : Type} (t : list Event) (a : A) (f : A -> M B) :
  bind (t, Ok a) f = (t ++ trace (f a), completion (f a)).
Proof. unfold bind, trace, completion. now destruct (f a). Qed.

Lemma bind_Throw {A B : Type} (t : list Event) (e : JsError) (f : A -> M B) :
  bind (t, Throw e) f = (t, Throw e).
Proof. reflexivity. Qed.

Lemma trace_bind {A B : Type} (m : M A) (f : A -> M B) :
  trace (bind m f) =
  match completion m with
  | Ok a => trace m ++ trace (f a)
  | Throw _ => trace m
  end.
Proof. destruct m as [t [a | e]]; [rewrite bind_Ok | rewrite bind_Throw]; reflexivity. Qed.

Lemma completion_bind {A B : Type} (m : M A) (f : A -> M B) :
  completion (bind m f) =
  match completion m with
  | Ok a => completion (f a)
  | Throw e => Throw e
  end.
Proof. destruct m as [t [a | e]]; [rewrite bind_Ok | rewrite bind_Throw]; reflexivity. Qed.

Lemma M_eta {A : Type} (m : M A) : m = (trace m, completion m).
Proof. now destruct m. Qed.

Lemma requests_app (t u : list Event) : requests (t ++ u) = requests t ++ requests u.
Proof.
  induction t as [| e t IH]; simpl; [reflexivity |].
  destruct e; simpl; now rewrite IH.
Qed.

Lemma calls_app (kind : Request -> bool) (t u : list Event) :
  calls kind (t ++ u) = (calls kind t + calls kind u)%nat.
Proof. unfold calls. now rewrite requests_app, filter_app, length_app. Qed.

Lemma timers_app (t u : list Event) : timers (t ++ u) = timers t ++ timers u.
Proof.
  induction t as [| e t IH]; simpl; [reflexivity |].
  destruct e; simpl; now rewrite IH.
Qed.

Lemma outputs_of_app (name : string) (t u : list Event) :
  outputs_of name (t ++ u) = outputs_of name t ++ outputs_of name u.
Proof.
  induction t as [| e t IH]; simpl; [reflexivity |].
  destruct e; simpl; try assumption.
  destruct (String.eqb name0 name); simpl; now rewrite IH.
Qed.

Lemma warnings_app (t u : list Event) : warnings (t ++ u) = warnings t ++ warnings u.
Proof.
  induction t as [| e t IH]; simpl; [reflexivity |].
  destruct e; simpl; now rewrite IH.
Qed.

(** ** Selecting the run *)

Lemma strict_eq_true (s : option string) (t : string) :
  strict_eq s t = true <-> s = Some t.
Proof.
  destruct s as [s |]; simpl.
  - rewrite String.eqb_eq. split; congruence.
  - split; discriminate.
Qed.

Lemma strict_eq_false (s : option string) (t : string) :
  strict_eq s t = false <-> s <> Some t.
Proof.
  rewrite <- strict_eq_true. destruct (strict_eq s t); split; congruence.
Qed.

Lemma hd_sort_insert {A : Type} (cmp : A -> A -> Z) (x : A) (l : list A) :
  hd_error (sort_insert cmp x l) =
  Some (match hd_error l with
        | None => x
        | Some y => if cmp x y <=? 0 then x else y
        end).
Proof. destruct l as [| y l]; simpl; [reflexivity |]. now destruct (cmp x y <=? 0). Qed.

(** The head of the sorted runs is one of them, and none is more recent. *)
Lemma hd_sort_newest (l : list WorkflowRun) (r : WorkflowRun) :
  hd_error (sort byCreatedAtDesc l) = Some r ->
  In r l /\ forall y, In y l -> created_at y <= created_at r.
Proof.
  revert r. induction l as [| x l IH]; intros r; simpl; [discriminate |].
  rewrite hd_sort_insert.
  destruct (hd_error (sort byCreatedAtDesc l)) as [y |] eqn:Hhd.
  - destruct (IH y eq_refl) as [Hin Hmax].
    unfold byCreatedAtDesc.
    destruct (created_at y - created_at x <=? 0) eqn:Hc; intros [= <-].
    + apply Z.leb_le in Hc. split; [now left |].
      intros z [<- | Hz]; [lia |]. specialize (Hmax z Hz). lia.
    + apply Z.leb_gt in Hc. split; [now right |].
      intros z [<- | Hz]; [lia | now apply Hmax].
  - intros [= <-]. split; [now left |].
    destruct l as [| x' l']; [intros z [<- | []]; lia |].
    simpl in Hhd. rewrite hd_sort_insert in Hhd. discriminate.
Qed.

Lemma hd_sort_nonempty {A : Type} (cmp : A -> A -> Z) (l : list A) :
  l <> [] -> exists r, hd_error (sort cmp l) = Some r.
Proof.
  destruct l as [| x l]; [congruence |]. intros _. simpl.
  rewrite hd_sort_insert. eauto.
Qed.

Lemma selectRun_Some (b : string) (data : list WorkflowRun) (r : WorkflowRun) :
  selectRun b data = Some r ->
  In r data /\ head_branch r = Some b /\
  forall run, In run data -> head_branch run = Some b -> created_at run <= created_at r.
Proof.
  unfold selectRun. intros H. apply hd_sort_newest in H. destruct H as [Hin Hmax].
  apply filter_In in Hin. destruct Hin as [Hin Hb]. apply strict_eq_true in Hb.
  repeat split; trivial.
  intros run Hrun Hrb. apply Hmax, filter_In. split; [assumption |].
  now apply strict_eq_true.
Qed.

Lemma selectRun_None (b : string) (data : list WorkflowRun) :
  (forall run, In run data -> head_branch run <> Some b) ->
  selectRun b data = None.
Proof.
  intros H. destruct (selectRun b data) as [r |] eqn:E; [| reflexivity].
  apply selectRun_Some in E. destruct E as (Hin & Hb & _). now apply H in Hin.
Qed.

Lemma selectRun_match (b : string) (data : list WorkflowRun) :
  (exists run, In run data /\ head_branch run = Some b) ->
  exists r, selectRun b data = Some r.
Proof.
  intros (run & Hin & Hb). unfold selectRun. apply hd_sort_nonempty.
  intros E. assert (Hf : In run (filter (fun run => strict_eq (head_branch run) b) data)).
  { apply filter_In. split; [assumption | now apply strict_eq_true]. }
  rewrite E in Hf. destruct Hf.
Qed.

(** ** Run discovery *)

Section Discovery.

Variable w : World.
Variable input : Input.

(** While no listed run is on the ref, every round lists, logs and waits. *)
Lemma findWorkflowRun_exhausted (n i : nat) :
  (forall j, (j < n)%nat -> noMatchAt w input (i + j)) ->
  findWorkflowRun w input n i = (concat (repeat (discoveryRound input) n), Ok None).
Proof.
  revert i. induction n as [| n IH]; intros i H; [reflexivity |].
  destruct (H 0%nat) as (data & Hdata & Hno); [lia |].
  rewrite Nat.add_0_r in Hdata.
  cbn [findWorkflowRun]. unfold await. rewrite Hdata, bind_Ok.
  rewrite (selectRun_None _ _ Hno).
  rewrite IH.
  - reflexivity.
  - intros j Hj. replace (S i + j)%nat with (i + S j)%nat by lia. apply H. lia.
Qed.

(** The first listing with a run on the ref ends the loop, with the run
    [selectRun] picks. *)
Lemma findWorkflowRun_found (n i k : nat) (data : list WorkflowRun) (r : WorkflowRun) :
  (k < n)%nat ->
  (forall j, (j < k)%nat -> noMatchAt w input (i + j)) ->
  listWorkflowRuns w (i + k) (listRunsRequest input) = Ok data ->
  selectRun (branchOrTagName input) data = Some r ->
  findWorkflowRun w input n i =
  (concat (repeat (discoveryRound input) k) ++ [Call (listRunsRequest input)],
   Ok (Some r)).
Proof.
  revert i k. induction n as [| n IH]; intros i k Hk Hno Hdata Hsel; [lia |].
  destruct k as [| k].
  - rewrite Nat.add_0_r in Hdata.
    cbn [findWorkflowRun]. unfold await. rewrite Hdata, bind_Ok, Hsel. reflexivity.
  - destruct (Hno 0%nat) as (data0 & Hdata0 & Hno0); [lia |].
    rewrite Nat.add_0_r in Hdata0.
    cbn [findWorkflowRun]. unfold await. rewrite Hdata0, bind_Ok.
    rewrite (selectRun_None _ _ Hno0).
    rewrite (IH (S i) k).
    + reflexivity.
    + lia.
    + intros j Hj. replace (S i + j)%nat with (i + S j)%nat by lia. apply Hno. lia.
    + replace (S i + k)%nat with (i + S k)%nat by lia. exact Hdata.
    + exact Hsel.
Qed.

(** A discovered run was listed, is on the ref, and is the newest such run
    of its listing. *)
Lemma findWorkflowRun_listed (n i : nat) (t : list Event) (r : WorkflowRun) :
  findWorkflowRun w input n i = (t, Ok (Some r)) ->
  exists j data,
    (i <= j < i + n)%nat /\
    listWorkflowRuns w j (listRunsRequest input) = Ok data /\
    selectRun (branchOrTagName input) data = Some r.
Proof.
  revert i t. induction n as [| n IH]; intros i t; [discriminate |].
  cbn [findWorkflowRun]. unfold await.
  destruct (listWorkflowRuns w i (listRunsRequest input)) as [data | e] eqn:Hdata;
    [| discriminate].
  rewrite bind_Ok.
  destruct (selectRun (branchOrTagName input) data) as [r' |] eqn:Hsel.
  - intros [= <- <-]. exists i, data. repeat split; trivial; lia.
  - unfold logger_info, setTimeout, emit. rewrite !bind_Ok.
    intros E. rewrite (M_eta (findWorkflowRun w input n (S i))) in E.
    cbn [trace completion fst snd] in E.
    injection E as _ E.
    destruct (IH (S i) (trace (findWorkflowRun w input n (S i)))) as (j & d & Hj & Hd & Hs).
    + rewrite (M_eta (findWorkflowRun w input n (S i))) at 1. now rewrite E.
    + exists j, d. repeat split; trivial; lia.
Qed.

(** Discovery only lists runs, logs and waits. *)
Lemma findWorkflowRun_events (n i : nat) :
  Forall (loopEvent (listRunsRequest input)) (trace (findWorkflowRun w input n i)).
Proof.
  revert i. induction n as [| n IH]; intros i; [constructor |].
  cbn [findWorkflowRun]. unfold await.
  destruct (listWorkflowRuns w i (listRunsRequest input)) as [data | e];
    [| repeat constructor].
  rewrite bind_Ok.
  destruct (selectRun (branchOrTagName input) data) as [r' |].
  - repeat constructor.
  - unfold logger_info, setTimeout, emit. rewrite !bind_Ok.
    cbn [trace fst app]. repeat (constructor; [simpl; trivial |]). apply IH.
Qed.

End Discovery.

(** ** Completion polling *)

Section Polling.

Variable w : World.
Variable input : Input.
Variable runId : Z.
Variable workflowRun : WorkflowRun.

(** While the run is pending, every round queries, logs and waits. *)
Lemma pollWorkflowRun_exhausted (n attempt : nat) :
  (forall a, (a < n)%nat -> pendingAt w input runId (attempt + a)) ->
  exists msgs,
    List.length msgs = n /\
    pollWorkflowRun w input runId workflowRun n attempt =
    (concat (map (pollRound input runId) msgs), Ok (false, workflowRun)).
Proof.
  revert attempt. induction n as [| n IH]; intros attempt H.
  - exists []. split; reflexivity.
  - destruct (H 0%nat) as (run & Hrun & Hst); [lia |].
    rewrite Nat.add_0_r in Hrun. apply strict_eq_false in Hst.
    destruct (IH (S attempt)) as (msgs & Hlen & Hpoll).
    { intros a Ha. replace (S attempt + a)%nat with (attempt + S a)%nat by lia.
      apply H. lia. }
    eexists (_ :: msgs). split; [simpl; now rewrite Hlen |].
    cbn [pollWorkflowRun]. unfold await. fold (getRunRequest input runId).
    rewrite Hrun, bind_Ok, Hst.
    unfold logger_info, setTimeout, emit. rewrite !bind_Ok, Hpoll. reflexivity.
Qed.

(** The first query that sees [completed] ends the loop at once. *)
Lemma pollWorkflowRun_completed (n attempt k : nat) (run : WorkflowRun) :
  (k < n)%nat ->
  (forall a, (a < k)%nat -> pendingAt w input runId (attempt + a)) ->
  getWorkflowRun w (attempt + k) (getRunRequest input runId) = Ok run ->
  status run = Some "completed" ->
  exists msgs,
    List.length msgs = k /\
    pollWorkflowRun w input runId workflowRun n attempt =
    (concat (map (pollRound input runId) msgs) ++ [Call (getRunRequest input runId)],
     Ok (true, run)).
Proof.
  revert attempt k. induction n as [| n IH]; intros attempt k Hk Hpend Hrun Hst; [lia |].
  destruct k as [| k].
  - exists []. split; [reflexivity |].
    rewrite Nat.add_0_r in Hrun. apply strict_eq_true in Hst.
    cbn [pollWorkflowRun]. unfold await. fold (getRunRequest input runId).
    rewrite Hrun, bind_Ok, Hst. reflexivity.
  - destruct (Hpend 0%nat) as (run0 & Hrun0 & Hst0); [lia |].
    rewrite Nat.add_0_r in Hrun0. apply strict_eq_false in Hst0.
    destruct (IH (S attempt) k) as (msgs & Hlen & Hpoll); trivial.
    { lia. }
    { intros a Ha. replace (S attempt + a)%nat with (attempt + S a)%nat by lia.
      apply Hpend. lia. }
    { replace (S attempt + k)%nat with (attempt + S k)%nat by lia. exact Hrun. }
    eexists (_ :: msgs). split; [simpl; now rewrite Hlen |].
    cbn [pollWorkflowRun]. unfold await. fold (getRunRequest input runId).
    rewrite Hrun0, bind_Ok, Hst0.
    unfold logger_info, setTimeout, emit. rewrite !bind_Ok, Hpoll. reflexivity.
Qed.

End Polling.

Section PollingEvents.

Variable w : World.
Variable input : Input.

(** Polling only queries the run, logs and waits. *)
Lemma pollWorkflowRun_events (runId : Z) (runData : WorkflowRun) (n attempt : nat) :
  Forall (loopEvent (getRunRequest input runId))
    (trace (pollWorkflowRun w input runId runData n attempt)).
Proof.
  revert attempt. induction n as [| n IH]; intros attempt; [constructor |].
  cbn [pollWorkflowRun]. unfold await. fold (getRunRequest input runId).
  destruct (getWorkflowRun w attempt (getRunRequest input runId)) as [run | e];
    [| repeat constructor].
  rewrite bind_Ok.
  destruct (strict_eq (status run) "completed").
  - repeat constructor.
  - unfold logger_info, setTimeout, emit. rewrite !bind_Ok.
    cbn [trace fst app]. repeat (constructor; [simpl; trivial |]). apply IH.
Qed.

End PollingEvents.

(** What loop events cannot be. *)
Lemma loopEvent_outputs (allowed : Request) (name : string) (t : list Event) :
  Forall (loopEvent allowed) t -> outputs_of name t = [].
Proof.
  induction 1 as [| e t He _ IH]; [reflexivity |].
  destruct e; simpl in *; trivial; contradiction.
Qed.

Lemma loopEvent_warnings (allowed : Request) (t : list Event) :
  Forall (loopEvent allowed) t -> warnings t = [].
Proof.
  induction 1 as [| e t He _ IH]; [reflexivity |].
  destruct e; simpl in *; trivial; contradiction.
Qed.

Lemma loopEvent_calls (allowed : Request) (kind : Request -> bool) (t : list Event) :
  Forall (loopEvent allowed) t -> kind allowed = false -> calls kind t = 0%nat.
Proof.
  intros H Hk. unfold calls.
  induction H as [| e t He _ IH]; [reflexivity |].
  destruct e; simpl in *; trivial; try contradiction.
  subst request. now rewrite Hk.
Qed.

Lemma loopEvent_timers (allowed : Request) (t : list Event) :
  Forall (loopEvent allowed) t -> Forall (fun ms => ms = 5000) (timers t).
Proof.
  induction 1 as [| e t He _ IH]; [constructor |].
  destruct e; simpl in *; trivial; try contradiction. now constructor.
Qed.

Lemma loopEvent_requests (allowed : Request) (t : list Event) :
  Forall (loopEvent allowed) t -> Forall (fun r => r = allowed) (requests t).
Proof.
  induction 1 as [| e t He _ IH]; [constructor |].
  destruct e; simpl in *; trivial; try contradiction. now constructor.
Qed.

(** What the artifact phase cannot do. *)
Lemma fetchEvent_timers (t : list Event) : Forall fetchEvent t -> timers t = [].
Proof.
  induction 1 as [| e t He _ IH]; [reflexivity |].
  destruct e; simpl in *; trivial; contradiction.
Qed.

Lemma fetchEvent_calls (kind : Request -> bool) (t : list Event) :
  Forall fetchEvent t ->
  (forall r, isListArtifacts r || isDownload r = true -> kind r = false) ->
  calls kind t = 0%nat.
Proof.
  intros H Hk. unfold calls.
  induction H as [| e t He _ IH]; [reflexivity |].
  destruct e; simpl in *; trivial; try contradiction.
  now rewrite (Hk _ He).
Qed.

(** ** Reading the output artifact *)

Section Extraction.

Variable w : World.

(** The scan stops at the first [.json] entry, whatever reading it gives. *)
Lemma scanFiles_firstJson (files : list ZipFile) :
  scanFiles w files =
  match firstJson files with
  | None => ([], Ok None)
  | Some file =>
      match buffer file with
      | Throw e => ([], Throw e)
      | Ok content =>
          match JSON_parse w content with
          | Throw e => ([], Throw e)
          | Ok v => ([], Ok (Some v))
          end
      end
  end.
Proof.
  induction files as [| file rest IH]; [reflexivity |].
  unfold firstJson in *. simpl.
  destruct (endsWith (path file) ".json"); [| exact IH].
  unfold lift. destruct (buffer file) as [content | e]; [| reflexivity].
  destruct (JSON_parse w content) as [v | e]; reflexivity.
Qed.

Lemma extractOutput_opened (zipData : Buffer) (files : list ZipFile) :
  unzipper_Open_buffer w zipData = Ok files ->
  extractOutput w zipData =
  try_catch
    (outputJson <- scanFiles w files ;;
     match outputJson with
     | Some v =>
         if truthy v then
           logger_info "Output artifact JSON parsed successfully" ;;
           output "outputs" v
         else logger_warn "No JSON file found inside output artifact ZIP"
     | None => logger_warn "No JSON file found inside output artifact ZIP"
     end)
    (fun error =>
       logger_warn
         (template ["Failed to extract or parse output artifact: "; toString error])).
Proof.
  intros H. unfold extractOutput, lift. rewrite H, bind_Ok, app_nil_l.
  now rewrite <- M_eta.
Qed.

(** Whatever goes wrong with the archive ends in one warning. *)
Lemma extractOutput_failure (zipData : Buffer) :
  ArchiveFailure w zipData ->
  exists msg, extractOutput w zipData = ([LoggerWarn msg], Ok tt).
Proof.
  intros [e He | files Hf Hnone | files file e Hf Hj Hb | files file content e Hf Hj Hb Hp].
  - eexists. unfold extractOutput, lift. rewrite He. reflexivity.
  - eexists. rewrite (extractOutput_opened _ _ Hf), scanFiles_firstJson, Hnone.
    reflexivity.
  - eexists. rewrite (extractOutput_opened _ _ Hf), scanFiles_firstJson, Hj, Hb.
    reflexivity.
  - eexists. rewrite (extractOutput_opened _ _ Hf), scanFiles_firstJson, Hj, Hb, Hp.
    reflexivity.
Qed.

(** A parsed but falsy document is reported as no document at all. *)
Lemma extractOutput_falsy (zipData : Buffer) (files : list ZipFile) (file : ZipFile)
  (content : Buffer) (v : JSValue) :
  unzipper_Open_buffer w zipData = Ok files ->
  firstJson files = Some file ->
  buffer file = Ok content ->
  JSON_parse w content = Ok v ->
  truthy v = false ->
  extractOutput w zipData =
  ([LoggerWarn "No JSON file found inside output artifact ZIP"], Ok tt).
Proof.
  intros Hf Hj Hb Hp Hv.
  rewrite (extractOutput_opened _ _ Hf), scanFiles_firstJson, Hj, Hb, Hp.
  rewrite bind_Ok, Hv. reflexivity.
Qed.

(** The guarded block always returns. *)
Lemma extractOutput_returns (zipData : Buffer) :
  completion (extractOutput w zipData) = Ok tt /\
  Forall fetchEvent (trace (extractOutput w zipData)).
Proof.
  unfold extractOutput, lift.
  destruct (unzipper_Open_buffer w zipData) as [files | e];
    [| split; [reflexivity | repeat constructor]].
  rewrite bind_Ok, app_nil_l, <- M_eta, scanFiles_firstJson.
  destruct (firstJson files) as [file |]; [| split; [reflexivity | repeat constructor]].
  destruct (buffer file) as [content | e];
    [| split; [reflexivity | repeat constructor]].
  destruct (JSON_parse w content) as [v | e];
    [| split; [reflexivity | repeat constructor]].
  rewrite bind_Ok. destruct (truthy v); split; try reflexivity; repeat constructor.
Qed.

Variable input : Input.
Variable runId : Z.

Lemma fetchOutputArtifact_events :
  Forall fetchEvent (trace (fetchOutputArtifact w input runId)).
Proof.
  unfold fetchOutputArtifact.
  destruct (outputArtifactName input) as [name |]; [| constructor].
  destruct (String.eqb name EmptyString); [constructor |].
  unfold logger_info, logger_warn, emit, await. rewrite bind_Ok.
  destruct (listWorkflowRunArtifacts w _) as [artifactsData | e];
    [| repeat constructor].
  rewrite bind_Ok.
  destruct (findArtifact name artifactsData) as [artifact |]; [| repeat constructor].
  destruct (downloadArtifact w _) as [zipData | e]; [| repeat constructor].
  rewrite bind_Ok. cbn [trace fst app].
  repeat (constructor; [simpl; trivial |]).
  apply extractOutput_returns.
Qed.

Variable name : string.
Variable artifactsData : list Artifact.
Hypothesis Hname : outputArtifactName input = Some name.
Hypothesis Hnonempty : name <> EmptyString.
Hypothesis Hlisted :
  listWorkflowRunArtifacts w (listArtifactsRequest input runId) = Ok artifactsData.

Lemma fetchOutputArtifact_absent :
  findArtifact name artifactsData = None ->
  fetchOutputArtifact w input runId =
  (lookupEvents input runId name ++ [LoggerWarn (template ["Artifact '"; name; "' not found"])], Ok tt).
Proof.
  intros Hfind. unfold fetchOutputArtifact. rewrite Hname.
  apply String.eqb_neq in Hnonempty. rewrite Hnonempty.
  unfold logger_info, emit, await. rewrite bind_Ok.
  fold (listArtifactsRequest input runId). rewrite Hlisted, bind_Ok, Hfind.
  reflexivity.
Qed.

Lemma fetchOutputArtifact_downloaded (artifact : Artifact) (zipData : Buffer) :
  findArtifact name artifactsData = Some artifact ->
  downloadArtifact w (downloadRequest input artifact) = Ok zipData ->
  fetchOutputArtifact w input runId =
  (lookupEvents input runId name ++ [Call (downloadRequest input artifact)]
     ++ trace (extractOutput w zipData),
   Ok tt).
Proof.
  intros Hfind Hdl. unfold fetchOutputArtifact. rewrite Hname.
  apply String.eqb_neq in Hnonempty. rewrite Hnonempty.
  unfold logger_info, emit, await. rewrite bind_Ok.
  fold (listArtifactsRequest input runId). rewrite Hlisted, bind_Ok, Hfind.
  fold (downloadRequest input artifact). rewrite Hdl, bind_Ok.
  destruct (extractOutput_returns zipData) as [-> _]. reflexivity.
Qed.

Lemma fetchOutputArtifact_download_fails (artifact : Artifact) (e : JsError) :
  findArtifact name artifactsData = Some artifact ->
  downloadArtifact w (downloadRequest input artifact) = Throw e ->
  fetchOutputArtifact w input runId =
  (lookupEvents input runId name ++ [Call (downloadRequest input artifact)], Throw e).
Proof.
  intros Hfind Hdl. unfold fetchOutputArtifact. rewrite Hname.
  apply String.eqb_neq in Hnonempty. rewrite Hnonempty.
  unfold logger_info, emit, await. rewrite bind_Ok.
  fold (listArtifactsRequest input runId). rewrite Hlisted, bind_Ok, Hfind.
  fold (downloadRequest input artifact). rewrite Hdl. reflexivity.
Qed.

End Extraction.

(** ** The handler, phase by phase *)

(** Traces up to the bracketing of [++]. *)
Ltac norm_trace :=
  cbn [trace completion fst snd negb throw];
  repeat (rewrite <- app_comm_cons || rewrite app_nil_l
          || rewrite <- app_assoc || rewrite app_nil_r);
  try reflexivity.

Section Phases.

Variable env : Env.
Variable w : World.
Variable input : Input.

(** Without a usable token nothing happens but the throw. *)
Lemma handler_no_token :
  truthy_string (resolveToken env (token input)) = false ->
  handler env w input = ([], Throw MissingCredentialError).
Proof.
  unfold handler. destruct (resolveToken env (token input)) as [tok |]; simpl.
  - destruct (String.eqb tok EmptyString); [reflexivity | discriminate].
  - reflexivity.
Qed.

Lemma handler_triggered (tok : string) :
  credential env input tok ->
  triggered w input ->
  handler env w input =
  (_ <- (dispatchEvents tok input, Ok tt) ;;
   if negb (match waitForCompletion input with Some b => b | None => false end) then
     logger_info "Not waiting for completion (waitForCompletion is false)"
   else awaitCompletion w input).
Proof.
  intros [Htok Hne] Ht. unfold handler. rewrite Htok.
  apply String.eqb_neq in Hne. rewrite Hne.
  unfold logger_info, emit, await, dispatchEvents. fold (dispatchRequest input).
  unfold triggered in Ht. rewrite Ht, !bind_Ok. reflexivity.
Qed.

Lemma handler_dispatch_fails (tok : string) (e : JsError) :
  credential env input tok ->
  createWorkflowDispatch w (dispatchRequest input) = Throw e ->
  handler env w input = (removelast (dispatchEvents tok input), Throw e).
Proof.
  intros [Htok Hne] Ht. unfold handler. rewrite Htok.
  apply String.eqb_neq in Hne. rewrite Hne.
  unfold logger_info, emit, await, dispatchEvents. fold (dispatchRequest input).
  rewrite Ht, !bind_Ok. reflexivity.
Qed.

Lemma handler_no_wait (tok : string) :
  credential env input tok ->
  triggered w input ->
  waitForCompletion input = None \/ waitForCompletion input = Some false ->
  handler env w input =
  (dispatchEvents tok input
     ++ [LoggerInfo "Not waiting for completion (waitForCompletion is false)"],
   Ok tt).
Proof.
  intros Hc Ht Hw. rewrite (handler_triggered tok Hc Ht).
  rewrite bind_Ok. destruct Hw as [-> | ->]; reflexivity.
Qed.

Lemma handler_wait (tok : string) :
  credential env input tok ->
  triggered w input ->
  waitForCompletion input = Some true ->
  handler env w input =
  (dispatchEvents tok input ++ trace (awaitCompletion w input),
   completion (awaitCompletion w input)).
Proof.
  intros Hc Ht Hw. rewrite (handler_triggered tok Hc Ht).
  rewrite bind_Ok, Hw. reflexivity.
Qed.

Lemma awaitCompletion_not_found (t : list Event) :
  findWorkflowRun w input maxRunPollAttempts 0 = (t, Ok None) ->
  awaitCompletion w input =
  (LoggerInfo "Waiting for workflow run to be created..." :: t, Throw RunNotFoundError).
Proof.
  intros H. unfold awaitCompletion, logger_info, emit.
  rewrite bind_Ok, H, bind_Ok. norm_trace.
Qed.

Lemma awaitCompletion_list_fails (t : list Event) (e : JsError) :
  findWorkflowRun w input maxRunPollAttempts 0 = (t, Throw e) ->
  awaitCompletion w input =
  (LoggerInfo "Waiting for workflow run to be created..." :: t, Throw e).
Proof.
  intros H. unfold awaitCompletion, logger_info, emit.
  rewrite bind_Ok, H, bind_Throw. norm_trace.
Qed.

Variable t : list Event.
Variable workflowRun : WorkflowRun.
Hypothesis Hfound :
  findWorkflowRun w input maxRunPollAttempts 0 = (t, Ok (Some workflowRun)).

Lemma awaitCompletion_timeout (t2 : list Event) (rd : WorkflowRun) :
  pollWorkflowRun w input (run_id workflowRun) workflowRun maxPollAttempts 0 =
    (t2, Ok (false, rd)) ->
  awaitCompletion w input =
  (LoggerInfo "Waiting for workflow run to be created..." :: t
     ++ foundEvents workflowRun ++ t2,
   Throw DispatchTimeoutError).
Proof.
  intros H. unfold awaitCompletion, logger_info, output, emit, foundEvents.
  rewrite bind_Ok, Hfound, !bind_Ok, H, bind_Ok. norm_trace.
Qed.

Lemma awaitCompletion_completed (t2 : list Event) (runData : WorkflowRun) :
  pollWorkflowRun w input (run_id workflowRun) workflowRun maxPollAttempts 0 =
    (t2, Ok (true, runData)) ->
  awaitCompletion w input =
  (LoggerInfo "Waiting for workflow run to be created..." :: t
     ++ foundEvents workflowRun ++ t2 ++ conclusionEvents runData
     ++ trace (fetchOutputArtifact w input (run_id workflowRun)),
   completion (fetchOutputArtifact w input (run_id workflowRun))).
Proof.
  intros H.
  unfold awaitCompletion, logger_info, output, emit, foundEvents, conclusionEvents.
  rewrite bind_Ok, Hfound, !bind_Ok, H, !bind_Ok. norm_trace.
Qed.

Lemma awaitCompletion_poll_fails (t2 : list Event) (e : JsError) :
  pollWorkflowRun w input (run_id workflowRun) workflowRun maxPollAttempts 0 =
    (t2, Throw e) ->
  awaitCompletion w input =
  (LoggerInfo "Waiting for workflow run to be created..." :: t
     ++ foundEvents workflowRun ++ t2,
   Throw e).
Proof.
  intros H. unfold awaitCompletion, logger_info, output, emit, foundEvents.
  rewrite bind_Ok, Hfound, !bind_Ok, H, bind_Throw. norm_trace.
Qed.

End Phases.

(** ** The credential *)

Lemma resolveToken_firstSet (env : Env) (providedToken : option string) :
  resolveToken env providedToken =
  firstSet [providedToken; GITHUB_TOKEN env; GH_TOKEN env].
Proof.
  unfold resolveToken, firstSet, nullish.
  destruct providedToken, (GITHUB_TOKEN env), (GH_TOKEN env); reflexivity.
Qed.

Lemma clientToken_handler (env : Env) (w : World) (input : Input) :
  clientToken (trace (handler env w input)) =
  if truthy_string (resolveToken env (token input))
  then resolveToken env (token input) else None.
Proof.
  destruct (truthy_string (resolveToken env (token input))) eqn:Ht.
  - destruct (resolveToken env (token input)) as [tok |] eqn:Hr; [| discriminate].
    simpl in Ht. apply negb_true_iff in Ht.
    unfold handler. rewrite Hr, Ht. unfold emit. rewrite bind_Ok. reflexivity.
  - now rewrite handler_no_token.
Qed.

(** C2.  A request without a token, in an environment where neither
    [GITHUB_TOKEN] nor [GH_TOKEN] holds one, fails with the missing-credential
    error, and the handler has made no request (it has done nothing at all). *)
Theorem missing_credential_fails_before_any_call (env : Env) (w : World) (input : Input) :
  token input = None ->
  truthy_string (GITHUB_TOKEN env) = false ->
  truthy_string (GH_TOKEN env) = false ->
  completion (handler env w input) = Throw MissingCredentialError /\
  requests (trace (handler env w input)) = [] /\
  trace (handler env w input) = [].
Proof.
  intros Htok Hgithub Hgh.
  rewrite handler_no_token; [repeat split |].
  unfold resolveToken, nullish. rewrite Htok.
  destruct (GITHUB_TOKEN env); assumption.
Qed.

Lemma missing_credential_witness :
  completion (handler Demo.env (Demo.world Demo.listing Demo.polled (Ok "zip")
                                  (Ok Demo.archive) (Ok JNull)) Demo.anonymous)
  = Throw MissingCredentialError.
Proof.
  apply (missing_credential_fails_before_any_call Demo.env
           (Demo.world Demo.listing Demo.polled (Ok "zip") (Ok Demo.archive) (Ok JNull))
           Demo.anonymous); reflexivity.
Defined.

(** C3, as stated, fails: with [GITHUB_TOKEN] set to the empty string and
    [GH_TOKEN] holding a token, the first non-empty variable is [GH_TOKEN],
    but the handler builds no client at all. *)
Lemma first_nonempty_does_not_win :
  spec_credential Demo.emptyFirst (token Demo.anonymous) = Some "ghp_fallback" /\
  clientToken
    (trace (handler Demo.emptyFirst
              (Demo.world Demo.listing Demo.polled (Ok "zip") (Ok Demo.archive) (Ok JNull))
              Demo.anonymous)) = None /\
  handler Demo.emptyFirst
    (Demo.world Demo.listing Demo.polled (Ok "zip") (Ok Demo.archive) (Ok JNull))
    Demo.anonymous = ([], Throw MissingCredentialError).
Proof. repeat split. Qed.

(** C3, amended.  The credential is the first of the explicit token,
    [GITHUB_TOKEN] and [GH_TOKEN] that is set at all: when it is non-empty the
    client is built with it; when it is empty (or none is set) the handler
    fails with the missing-credential error without looking further.  It is
    the credential of the specification whenever neither the explicit token
    nor [GITHUB_TOKEN] is set to the empty string. *)
Theorem credential_is_first_set (env : Env) (w : World) (input : Input) :
  let chosen := firstSet [token input; GITHUB_TOKEN env; GH_TOKEN env] in
  (truthy_string chosen = true ->
   clientToken (trace (handler env w input)) = chosen) /\
  (truthy_string chosen = false ->
   handler env w input = ([], Throw MissingCredentialError)) /\
  (token input <> Some EmptyString ->
   GITHUB_TOKEN env <> Some EmptyString ->
   clientToken (trace (handler env w input)) = spec_credential env (token input)).
Proof.
  cbv zeta. rewrite <- resolveToken_firstSet. repeat split.
  - intros H. now rewrite clientToken_handler, H.
  - apply handler_no_token.
  - intros Ht Hg. rewrite clientToken_handler.
    unfold resolveToken, spec_credential, nullish.
    destruct (token input) as [tok |].
    + simpl. destruct (String.eqb_spec tok EmptyString); [congruence | reflexivity].
    + destruct (GITHUB_TOKEN env) as [g |].
      * simpl. destruct (String.eqb_spec g EmptyString); [congruence | reflexivity].
      * destruct (GH_TOKEN env) as [h |]; [| reflexivity].
        simpl. now destruct (String.eqb h EmptyString).
Qed.

Lemma credential_is_first_set_witness :
  clientToken
    (trace (handler Demo.emptyFirst
              (Demo.world Demo.listing Demo.polled (Ok "zip") (Ok Demo.archive) (Ok JNull))
              Demo.input)) = Some "ghp_token" /\
  handler Demo.emptyFirst
    (Demo.world Demo.listing Demo.polled (Ok "zip") (Ok Demo.archive) (Ok JNull))
    Demo.anonymous = ([], Throw MissingCredentialError) /\
  clientToken
    (trace (handler Demo.env
              (Demo.world Demo.listing Demo.polled (Ok "zip") (Ok Demo.archive) (Ok JNull))
              Demo.input)) = spec_credential Demo.env (token Demo.input).
Proof.
  split; [| split].
  - apply (proj1 (credential_is_first_set Demo.emptyFirst
                    (Demo.world Demo.listing Demo.polled (Ok "zip") (Ok Demo.archive)
                       (Ok JNull)) Demo.input)).
    reflexivity.
  - apply (proj1 (proj2 (credential_is_first_set Demo.emptyFirst
                    (Demo.world Demo.listing Demo.polled (Ok "zip") (Ok Demo.archive)
                       (Ok JNull)) Demo.anonymous))).
    reflexivity.
  - apply (proj2 (proj2 (credential_is_first_set Demo.env
                    (Demo.world Demo.listing Demo.polled (Ok "zip") (Ok Demo.archive)
                       (Ok JNull)) Demo.input))); discriminate.
Defined.

(** ** Counting over rounds *)

Lemma calls_discoveryRounds (input : Input) (n : nat) :
  calls isListRuns (concat (repeat (discoveryRound input) n)) = n.
Proof.
  induction n as [| n IH]; [reflexivity |].
  cbn [repeat concat]. rewrite calls_app, IH. reflexivity.
Qed.

Lemma timers_discoveryRounds (input : Input) (n : nat) :
  timers (concat (repeat (discoveryRound input) n)) = repeat 5000 n.
Proof.
  induction n as [| n IH]; [reflexivity |].
  cbn [repeat concat]. rewrite timers_app, IH. reflexivity.
Qed.

Lemma calls_pollRounds (input : Input) (runId : Z) (msgs : list string) :
  calls isGetRun (concat (map (pollRound input runId) msgs)) = List.length msgs.
Proof.
  induction msgs as [| msg msgs IH]; [reflexivity |].
  cbn [map concat]. rewrite calls_app, IH. reflexivity.
Qed.

Lemma timers_pollRounds (input : Input) (runId : Z) (msgs : list string) :
  timers (concat (map (pollRound input runId) msgs)) = repeat 5000 (List.length msgs).
Proof.
  induction msgs as [| msg msgs IH]; [reflexivity |].
  cbn [map concat]. rewrite timers_app, IH. reflexivity.
Qed.

Lemma found_trace (w : World) (input : Input) (n i : nat) (t : list Event)
  (r : Result (option WorkflowRun)) :
  findWorkflowRun w input n i = (t, r) -> Forall (loopEvent (listRunsRequest input)) t.
Proof. intros H. generalize (findWorkflowRun_events w input n i). now rewrite H. Qed.

Lemma polled_trace (w : World) (input : Input) (runId : Z) (runData : WorkflowRun)
  (n a : nat) (t : list Event) (r : Result (bool * WorkflowRun)) :
  pollWorkflowRun w input runId runData n a = (t, r) ->
  Forall (loopEvent (getRunRequest input runId)) t.
Proof. intros H. generalize (pollWorkflowRun_events w input runId runData n a). now rewrite H. Qed.

(** ** Not waiting *)

(** C8.  With [waitForCompletion] false or left out, the handler lists no
    runs, queries no run, lists and downloads no artifact and sets neither
    [conclusion] nor [outputs], whatever the remote side does; and once the
    credential is there and the dispatch request goes through, it has made
    exactly one dispatch request and returns. *)
Theorem no_wait_only_dispatches (env : Env) (w : World) (input : Input) :
  waitForCompletion input = None \/ waitForCompletion input = Some false ->
  let tr := trace (handler env w input) in
  (calls isListRuns tr = 0 /\ calls isGetRun tr = 0 /\
   calls isListArtifacts tr = 0 /\ calls isDownload tr = 0 /\
   outputs_of "conclusion" tr = [] /\ outputs_of "outputs" tr = [] /\
   calls isDispatch tr <= 1)%nat /\
  (forall tok,
     credential env input tok ->
     triggered w input ->
     completion (handler env w input) = Ok tt /\
     calls isDispatch tr = 1%nat /\
     requests tr = [dispatchRequest input]).
Proof.
  intros Hw. cbv zeta. split.
  - destruct (truthy_string (resolveToken env (token input))) eqn:Ht.
    + destruct (resolveToken env (token input)) as [tok |] eqn:Hr; [| discriminate].
      assert (Hc : credential env input tok).
      { split; [assumption |]. simpl in Ht. apply negb_true_iff in Ht.
        now apply String.eqb_neq. }
      destruct (createWorkflowDispatch w (dispatchRequest input)) as [[] | e] eqn:Hd.
      * rewrite (handler_no_wait env w input tok Hc Hd Hw). cbn [trace fst].
        repeat split; try reflexivity.
      * rewrite (handler_dispatch_fails env w input tok e Hc Hd). cbn [trace fst].
        repeat split; try reflexivity.
    + rewrite (handler_no_token env w input Ht). cbn [trace fst].
      repeat split; try reflexivity. apply Nat.le_0_l.
  - intros tok Hc Hd. rewrite (handler_no_wait env w input tok Hc Hd Hw).
    repeat split.
Qed.

Lemma no_wait_only_dispatches_witness :
  requests
    (trace (handler Demo.env
              (Demo.world Demo.listing Demo.polled (Ok "zip") (Ok Demo.archive) (Ok JNull))
              Demo.fireAndForget))
  = [dispatchRequest Demo.fireAndForget].
Proof.
  apply (proj2 (no_wait_only_dispatches Demo.env
                  (Demo.world Demo.listing Demo.polled (Ok "zip") (Ok Demo.archive)
                     (Ok JNull)) Demo.fireAndForget (or_introl eq_refl))
           "ghp_token").
  - split; [reflexivity | discriminate].
  - reflexivity.
Defined.

(** ** Run discovery gives up *)

(** C4.  When the dispatch went through, the handler waits, and none of the
    twelve listings has a run on the requested ref, the handler throws the
    run-not-found error after exactly twelve listing requests, each followed
    by a delay of 5000 ms; it has dispatched once, and does nothing after the
    twelfth round. *)
Theorem run_not_found_after_twelve_listings (env : Env) (w : World) (input : Input)
  (tok : string) :
  credential env input tok ->
  triggered w input ->
  waitForCompletion input = Some true ->
  (forall i, (i < 12)%nat -> noMatchAt w input i) ->
  let tr := trace (handler env w input) in
  completion (handler env w input) = Throw RunNotFoundError /\
  calls isListRuns tr = 12%nat /\
  timers tr = repeat 5000 12 /\
  calls isDispatch tr = 1%nat /\
  calls isGetRun tr = 0%nat /\
  tr = dispatchEvents tok input
         ++ LoggerInfo "Waiting for workflow run to be created..."
         :: concat (repeat (discoveryRound input) 12).
Proof.
  intros Hc Hd Hw Hno. cbv zeta.
  rewrite (handler_wait env w input tok Hc Hd Hw).
  rewrite (awaitCompletion_not_found w input
             (concat (repeat (discoveryRound input) 12))).
  - cbn [trace completion fst snd]. repeat split; reflexivity.
  - apply (findWorkflowRun_exhausted w input 12 0). exact Hno.
Qed.

Lemma run_not_found_witness :
  completion
    (handler Demo.env
       (Demo.world (fun _ => [Demo.run 3 50 "develop" "queued"]) Demo.polled (Ok "zip")
          (Ok Demo.archive) (Ok JNull))
       Demo.input)
  = Throw RunNotFoundError.
Proof.
  apply (run_not_found_after_twelve_listings Demo.env
           (Demo.world (fun _ => [Demo.run 3 50 "develop" "queued"]) Demo.polled (Ok "zip")
              (Ok Demo.archive) (Ok JNull))
           Demo.input "ghp_token").
  - split; [reflexivity | discriminate].
  - reflexivity.
  - reflexivity.
  - intros i _. exists [Demo.run 3 50 "develop" "queued"]. split; [reflexivity |].
    intros run [<- | []]. discriminate.
Defined.

(** ** Completion polling gives up, or stops *)

(** After discovery the handler lists no runs any more. *)
Lemma awaitCompletion_after_found (w : World) (input : Input) (t : list Event)
  (workflowRun : WorkflowRun) :
  findWorkflowRun w input maxRunPollAttempts 0 = (t, Ok (Some workflowRun)) ->
  exists rest,
    trace (awaitCompletion w input) =
      LoggerInfo "Waiting for workflow run to be created..." :: t
        ++ foundEvents workflowRun ++ rest /\
    calls isListRuns rest = 0%nat.
Proof.
  intros Hfound.
  destruct (pollWorkflowRun w input (run_id workflowRun) workflowRun maxPollAttempts 0)
    as [t2 [[[] rd] | e]] eqn:Hp.
  - rewrite (awaitCompletion_completed w input t workflowRun Hfound t2 rd Hp).
    eexists. split; [reflexivity |].
    rewrite !calls_app, (loopEvent_calls _ isListRuns _ (polled_trace _ _ _ _ _ _ _ _ Hp) eq_refl).
    rewrite (fetchEvent_calls isListRuns _ (fetchOutputArtifact_events w input _)).
    + reflexivity.
    + now intros [].
  - rewrite (awaitCompletion_timeout w input t workflowRun Hfound t2 rd Hp).
    eexists. split; [reflexivity |].
    apply (loopEvent_calls _ isListRuns _ (polled_trace _ _ _ _ _ _ _ _ Hp) eq_refl).
  - rewrite (awaitCompletion_poll_fails w input t workflowRun Hfound t2 e Hp).
    eexists. split; [reflexivity |].
    apply (loopEvent_calls _ isListRuns _ (polled_trace _ _ _ _ _ _ _ _ Hp) eq_refl).
Qed.

(** C7.  When the run was discovered and none of the sixty status queries
    sees it completed, the handler throws the timeout error after exactly
    sixty status queries, each followed by a delay of 5000 ms, and nothing
    else. *)
Theorem timeout_after_sixty_queries (env : Env) (w : World) (input : Input)
  (tok : string) (t : list Event) (workflowRun : WorkflowRun) :
  credential env input tok ->
  triggered w input ->
  waitForCompletion input = Some true ->
  findWorkflowRun w input maxRunPollAttempts 0 = (t, Ok (Some workflowRun)) ->
  (forall a, (a < 60)%nat -> pendingAt w input (run_id workflowRun) a) ->
  let tr := trace (handler env w input) in
  completion (handler env w input) = Throw DispatchTimeoutError /\
  calls isGetRun tr = 60%nat /\
  timers tr = timers t ++ repeat 5000 60 /\
  exists msgs,
    List.length msgs = 60%nat /\
    tr = dispatchEvents tok input
           ++ LoggerInfo "Waiting for workflow run to be created..." :: t
           ++ foundEvents workflowRun
           ++ concat (map (pollRound input (run_id workflowRun)) msgs).
Proof.
  intros Hc Hd Hw Hfound Hpending. cbv zeta.
  destruct (pollWorkflowRun_exhausted w input (run_id workflowRun) workflowRun 60 0
              Hpending) as (msgs & Hlen & Hpoll).
  rewrite (handler_wait env w input tok Hc Hd Hw).
  rewrite (awaitCompletion_timeout w input t workflowRun Hfound _ _ Hpoll).
  cbn [trace completion fst snd]. split; [reflexivity |].
  pose proof (found_trace _ _ _ _ _ _ Hfound) as Ht.
  split; [| split].
  - rewrite calls_app. change (LoggerInfo ?m :: ?l) with ([LoggerInfo m] ++ l).
    rewrite !calls_app, calls_pollRounds, Hlen.
    now rewrite (loopEvent_calls _ isGetRun _ Ht eq_refl).
  - rewrite timers_app. change (LoggerInfo ?m :: ?l) with ([LoggerInfo m] ++ l).
    rewrite !timers_app, timers_pollRounds, Hlen. reflexivity.
  - exists msgs. split; [assumption | reflexivity].
Qed.

Lemma timeout_witness :
  completion (handler Demo.env Demo.stuck Demo.input) = Throw DispatchTimeoutError.
Proof.
  refine (proj1 (timeout_after_sixty_queries Demo.env Demo.stuck Demo.input "ghp_token"
                   (discoveryRound Demo.input ++ [Call (listRunsRequest Demo.input)])
                   Demo.discovered _ _ _ _ _)).
  - split; [reflexivity | discriminate].
  - reflexivity.
  - reflexivity.
  - reflexivity.
  - intros a _. exists (Demo.run 7 100 "main" "in_progress").
    split; [reflexivity | discriminate].
Defined.

(** C6.  When the run was discovered and the [k]-th status query, [k <= 60],
    is the first to see it completed, the handler makes exactly [k] status
    queries: [k - 1] before that one, each followed by a delay, and after it
    no status query and no delay at all. *)
Theorem polling_stops_at_completion (env : Env) (w : World) (input : Input)
  (tok : string) (t : list Event) (workflowRun run : WorkflowRun) (k : nat) :
  credential env input tok ->
  triggered w input ->
  waitForCompletion input = Some true ->
  findWorkflowRun w input maxRunPollAttempts 0 = (t, Ok (Some workflowRun)) ->
  (1 <= k <= 60)%nat ->
  (forall a, (a < k - 1)%nat -> pendingAt w input (run_id workflowRun) a) ->
  getWorkflowRun w (k - 1) (getRunRequest input (run_id workflowRun)) = Ok run ->
  status run = Some "completed" ->
  let tr := trace (handler env w input) in
  calls isGetRun tr = k /\
  timers tr = timers t ++ repeat 5000 (k - 1) /\
  exists before after,
    tr = before ++ Call (getRunRequest input (run_id workflowRun)) :: after /\
    calls isGetRun before = (k - 1)%nat /\
    calls isGetRun after = 0%nat /\
    timers after = [].
Proof.
  intros Hc Hd Hw Hfound Hk Hpending Hrun Hst. cbv zeta.
  destruct (pollWorkflowRun_completed w input (run_id workflowRun) workflowRun
              60 0 (k - 1) run) as (msgs & Hlen & Hpoll); trivial; [lia |].
  rewrite (handler_wait env w input tok Hc Hd Hw).
  rewrite (awaitCompletion_completed w input t workflowRun Hfound _ _ Hpoll).
  cbn [trace completion fst snd].
  pose proof (found_trace _ _ _ _ _ _ Hfound) as Ht.
  pose proof (fetchOutputArtifact_events w input (run_id workflowRun)) as Hf.
  set (fetched := trace (fetchOutputArtifact w input (run_id workflowRun))) in *.
  assert (Hbefore :
    calls isGetRun
      (dispatchEvents tok input
         ++ LoggerInfo "Waiting for workflow run to be created..." :: t
         ++ foundEvents workflowRun
         ++ concat (map (pollRound input (run_id workflowRun)) msgs)) = (k - 1)%nat).
  { rewrite calls_app. change (LoggerInfo ?m :: ?l) with ([LoggerInfo m] ++ l).
    rewrite !calls_app, calls_pollRounds, Hlen.
    now rewrite (loopEvent_calls _ isGetRun _ Ht eq_refl). }
  assert (Hafter : calls isGetRun (conclusionEvents run ++ fetched) = 0%nat).
  { rewrite calls_app, (fetchEvent_calls isGetRun _ Hf); [reflexivity | now intros []]. }
  assert (Hquiet : timers (conclusionEvents run ++ fetched) = []).
  { now rewrite timers_app, (fetchEvent_timers _ Hf). }
  assert (Hsplit :
    dispatchEvents tok input
      ++ LoggerInfo "Waiting for workflow run to be created..." :: t
      ++ foundEvents workflowRun
      ++ (concat (map (pollRound input (run_id workflowRun)) msgs)
            ++ [Call (getRunRequest input (run_id workflowRun))])
      ++ conclusionEvents run ++ fetched
    = (dispatchEvents tok input
         ++ LoggerInfo "Waiting for workflow run to be created..." :: t
         ++ foundEvents workflowRun
         ++ concat (map (pollRound input (run_id workflowRun)) msgs))
        ++ Call (getRunRequest input (run_id workflowRun))
        :: (conclusionEvents run ++ fetched)).
  { rewrite <- !app_assoc, <- !app_comm_cons, <- !app_assoc. reflexivity. }
  rewrite Hsplit. split; [| split].
  - rewrite calls_app, Hbefore.
    change (Call ?r :: ?l) with ([Call r] ++ l).
    rewrite calls_app, Hafter. simpl. lia.
  - rewrite timers_app. cbn [timers]. rewrite Hquiet, app_nil_r.
    rewrite timers_app. change (LoggerInfo ?m :: ?l) with ([LoggerInfo m] ++ l).
    rewrite !timers_app, timers_pollRounds, Hlen. reflexivity.
  - eexists _, _. repeat split; eassumption.
Qed.

Lemma polling_stops_witness :
  calls isGetRun (trace (handler Demo.env Demo.remote Demo.input)) = 3%nat.
Proof.
  refine (proj1 (polling_stops_at_completion Demo.env Demo.remote Demo.input "ghp_token"
                   (discoveryRound Demo.input ++ [Call (listRunsRequest Demo.input)])
                   Demo.discovered Demo.completedRun 3 _ _ _ _ _ _ _ _)).
  - split; [reflexivity | discriminate].
  - reflexivity.
  - reflexivity.
  - reflexivity.
  - lia.
  - intros a Ha. exists (Demo.polled a). split; [reflexivity |].
    unfold Demo.polled. destruct (a <? 2)%nat eqn:E; [discriminate |].
    apply Nat.ltb_ge in E. simpl in Ha. lia.
  - reflexivity.
  - reflexivity.
Defined.

(** ** Run discovery succeeds *)

(** C5.  When the [k]-th listing is the first to contain a run whose head
    ref is the requested ref, the run the handler goes on with is one of that
    listing's runs on the ref, none of which was created later; the handler
    has then listed runs [k + 1] times and never lists again. *)
Theorem newest_matching_run_is_selected (env : Env) (w : World) (input : Input)
  (tok : string) (k : nat) (data : list WorkflowRun) :
  credential env input tok ->
  triggered w input ->
  waitForCompletion input = Some true ->
  (k < 12)%nat ->
  (forall i, (i < k)%nat -> noMatchAt w input i) ->
  listWorkflowRuns w k (listRunsRequest input) = Ok data ->
  (exists run, In run data /\ head_branch run = Some (branchOrTagName input)) ->
  exists workflowRun,
    In workflowRun data /\
    head_branch workflowRun = Some (branchOrTagName input) /\
    (forall run, In run data -> head_branch run = Some (branchOrTagName input) ->
                 created_at run <= created_at workflowRun) /\
    findWorkflowRun w input maxRunPollAttempts 0 =
      (concat (repeat (discoveryRound input) k) ++ [Call (listRunsRequest input)],
       Ok (Some workflowRun)) /\
    calls isListRuns (trace (handler env w input)) = S k /\
    In (LoggerInfo (template ["Found workflow run: "; show_Z (run_id workflowRun)]))
       (trace (handler env w input)).
Proof.
  intros Hc Hd Hw Hk Hno Hdata Hmatch.
  destruct (selectRun_match _ _ Hmatch) as (workflowRun & Hsel).
  destruct (selectRun_Some _ _ _ Hsel) as (Hin & Hb & Hmax).
  pose proof (findWorkflowRun_found w input maxRunPollAttempts 0 k data workflowRun
                Hk Hno Hdata Hsel) as Hfound.
  destruct (awaitCompletion_after_found w input _ workflowRun Hfound)
    as (rest & Htrace & Hrest).
  exists workflowRun. repeat split; trivial.
  - rewrite (handler_wait env w input tok Hc Hd Hw). cbn [trace fst]. rewrite Htrace.
    rewrite calls_app. change (LoggerInfo ?m :: ?l) with ([LoggerInfo m] ++ l).
    rewrite !calls_app, calls_discoveryRounds, Hrest.
    change (calls isListRuns [Call (listRunsRequest input)]) with 1%nat.
    simpl. lia.
  - rewrite (handler_wait env w input tok Hc Hd Hw). cbn [trace fst]. rewrite Htrace.
    apply in_or_app. right. right. apply in_or_app. right.
    apply in_or_app. left. now left.
Qed.

Lemma newest_matching_run_witness :
  exists workflowRun,
    In workflowRun (Demo.crowded 1) /\
    head_branch workflowRun = Some "main" /\
    (forall run, In run (Demo.crowded 1) -> head_branch run = Some "main" ->
                 created_at run <= created_at workflowRun) /\
    findWorkflowRun Demo.busy Demo.input maxRunPollAttempts 0 =
      (concat (repeat (discoveryRound Demo.input) 1)
         ++ [Call (listRunsRequest Demo.input)],
       Ok (Some workflowRun)) /\
    calls isListRuns (trace (handler Demo.env Demo.busy Demo.input)) = 2%nat /\
    In (LoggerInfo (template ["Found workflow run: "; show_Z (run_id workflowRun)]))
       (trace (handler Demo.env Demo.busy Demo.input)).
Proof.
  apply (newest_matching_run_is_selected Demo.env Demo.busy Demo.input "ghp_token"
           1 (Demo.crowded 1)).
  - split; [reflexivity | discriminate].
  - reflexivity.
  - reflexivity.
  - lia.
  - intros i Hi. exists (Demo.crowded i). split; [reflexivity |].
    assert (i = 0%nat) as -> by lia. intros run [<- | []]. discriminate.
  - reflexivity.
  - exists (Demo.run 2 30 "main" "queued"). split; [| reflexivity].
    right. now left.
Defined.

(** With the scenario's listing the run created last, run 2, is the one. *)
Example crowded_selects_newest :
  selectRun "main" (Demo.crowded 1) = Some (Demo.run 2 30 "main" "queued").
Proof. reflexivity. Qed.

(** ** The artifact phase *)

Section ReachedExtraction.

Variable env : Env.
Variable w : World.
Variable input : Input.
Variable tok : string.
Variable t t2 : list Event.
Variable workflowRun runData : WorkflowRun.
Variable name : string.
Variable artifactsData : list Artifact.

(** The handler waits, has found the run and has seen it completed, and an
    output artifact is asked for. *)
Hypothesis Hcredential : credential env input tok.
Hypothesis Htriggered : triggered w input.
Hypothesis Hwait : waitForCompletion input = Some true.
Hypothesis Hfound :
  findWorkflowRun w input maxRunPollAttempts 0 = (t, Ok (Some workflowRun)).
Hypothesis Hcompleted :
  pollWorkflowRun w input (run_id workflowRun) workflowRun maxPollAttempts 0
  = (t2, Ok (true, runData)).
Hypothesis Hname : outputArtifactName input = Some name.
Hypothesis Hnonempty : name <> EmptyString.

Lemma handler_reached :
  handler env w input =
  (reachedEvents tok input t workflowRun t2 runData
     ++ trace (fetchOutputArtifact w input (run_id workflowRun)),
   completion (fetchOutputArtifact w input (run_id workflowRun))).
Proof.
  rewrite (handler_wait env w input tok Hcredential Htriggered Hwait).
  rewrite (awaitCompletion_completed w input t workflowRun Hfound t2 runData Hcompleted).
  unfold reachedEvents. norm_trace.
Qed.

Lemma reachedEvents_outputs :
  outputs_of "outputs" (reachedEvents tok input t workflowRun t2 runData) = [] /\
  outputs_of "conclusion" (reachedEvents tok input t workflowRun t2 runData)
  = [conclusionValue runData] /\
  warnings (reachedEvents tok input t workflowRun t2 runData) = [].
Proof.
  pose proof (found_trace _ _ _ _ _ _ Hfound) as Ht.
  pose proof (polled_trace _ _ _ _ _ _ _ _ Hcompleted) as Ht2.
  unfold reachedEvents.
  change (LoggerInfo ?m :: ?l) with ([LoggerInfo m] ++ l).
  rewrite !outputs_of_app, !warnings_app.
  rewrite !(loopEvent_outputs _ _ _ Ht), !(loopEvent_outputs _ _ _ Ht2).
  rewrite (loopEvent_warnings _ _ Ht), (loopEvent_warnings _ _ Ht2).
  repeat split.
Qed.

Hypothesis Hlisted :
  listWorkflowRunArtifacts w (listArtifactsRequest input (run_id workflowRun))
  = Ok artifactsData.

(** C1, amended.  Once the handler looks for the output artifact and the
    artifact listing answers, a failed extraction (the artifact is not listed;
    or it is downloaded and the archive does not open, has no [.json] entry,
    its entry cannot be read, or its text does not parse) never fails the
    handler: it returns, [conclusion] is set, [outputs] is not, and the last
    thing it does is log a warning, the only one.  A download request that
    fails is not among these. *)
Theorem extraction_failure_is_absorbed :
  ExtractionFailure w input name artifactsData ->
  let tr := trace (handler env w input) in
  completion (handler env w input) = Ok tt /\
  outputs_of "conclusion" tr = [conclusionValue runData] /\
  outputs_of "outputs" tr = [] /\
  exists msg, warnings tr = [msg] /\ exists before, tr = before ++ [LoggerWarn msg].
Proof.
  intros Hfail. cbv zeta. rewrite handler_reached.
  destruct reachedEvents_outputs as (Hout & Hconc & Hwarn).
  assert (Hfetch : exists msg pre,
    fetchOutputArtifact w input (run_id workflowRun) = (pre ++ [LoggerWarn msg], Ok tt) /\
    outputs_of "outputs" pre = [] /\ outputs_of "conclusion" pre = [] /\
    warnings pre = []).
  { destruct Hfail as [Habsent | artifact zipData Hfind Hdl Harchive].
    - exists (template ["Artifact '"; name; "' not found"]),
        (lookupEvents input (run_id workflowRun) name).
      split; [| repeat split].
      apply (fetchOutputArtifact_absent w input _ name artifactsData
               Hname Hnonempty Hlisted Habsent).
    - destruct (extractOutput_failure w zipData Harchive) as (msg & Hex).
      exists msg, (lookupEvents input (run_id workflowRun) name
                   ++ [Call (downloadRequest input artifact)]).
      split; [| repeat split].
      rewrite (fetchOutputArtifact_downloaded w input _ name artifactsData
                 Hname Hnonempty Hlisted artifact zipData Hfind Hdl).
      rewrite Hex. cbn [trace fst]. now rewrite <- app_assoc. }
  destruct Hfetch as (msg & pre & -> & Hpre1 & Hpre2 & Hpre3).
  cbn [trace completion fst snd].
  rewrite !outputs_of_app, warnings_app, warnings_app, Hout, Hconc, Hwarn.
  rewrite Hpre1, Hpre2, Hpre3.
  repeat split. exists msg. split; [reflexivity |].
  exists (reachedEvents tok input t workflowRun t2 runData ++ pre).
  now rewrite <- app_assoc.
Qed.

(** C9.  When the first [.json] entry of the archive parses to a falsy value
    (such as [false], [0], [null] or the empty string), the handler returns
    without setting [outputs], and its one warning says that no JSON file was
    found in the archive. *)
Theorem falsy_document_counts_as_missing (artifact : Artifact) (zipData : Buffer)
  (files : list ZipFile) (file : ZipFile) (content : Buffer) (v : JSValue) :
  findArtifact name artifactsData = Some artifact ->
  downloadArtifact w (downloadRequest input artifact) = Ok zipData ->
  unzipper_Open_buffer w zipData = Ok files ->
  firstJson files = Some file ->
  buffer file = Ok content ->
  JSON_parse w content = Ok v ->
  truthy v = false ->
  let tr := trace (handler env w input) in
  completion (handler env w input) = Ok tt /\
  outputs_of "outputs" tr = [] /\
  warnings tr = ["No JSON file found inside output artifact ZIP"] /\
  (exists before,
     tr = before ++ [LoggerWarn "No JSON file found inside output artifact ZIP"]) /\
  truthy (JBool false) = false /\ truthy (JNumber 0%float) = false /\
  truthy JNull = false /\ truthy (JString EmptyString) = false.
Proof.
  intros Hfind Hdl Hopen Hjson Hread Hparse Hfalsy. cbv zeta. rewrite handler_reached.
  destruct reachedEvents_outputs as (Hout & Hconc & Hwarn).
  rewrite (fetchOutputArtifact_downloaded w input _ name artifactsData
             Hname Hnonempty Hlisted artifact zipData Hfind Hdl).
  rewrite (extractOutput_falsy w zipData files file content v
             Hopen Hjson Hread Hparse Hfalsy).
  cbn [trace completion fst snd].
  rewrite !outputs_of_app, !warnings_app, Hout, Hwarn.
  repeat split.
  eexists. rewrite !app_assoc. reflexivity.
Qed.

End ReachedExtraction.

Lemma extraction_failure_witness :
  completion (handler Demo.env Demo.corrupt Demo.input) = Ok tt.
Proof.
  refine (proj1 (extraction_failure_is_absorbed Demo.env Demo.corrupt Demo.input
                   "ghp_token" Demo.discovery Demo.polling Demo.discovered
                   Demo.completedRun "result" [mkArtifact "result" 3]
                   _ _ _ _ _ _ _ _ _)).
  - split; [reflexivity | discriminate].
  - reflexivity.
  - reflexivity.
  - reflexivity.
  - reflexivity.
  - reflexivity.
  - discriminate.
  - reflexivity.
  - apply (ArchiveUnreadable Demo.corrupt Demo.input "result" [mkArtifact "result" 3]
             (mkArtifact "result" 3) "zip"); [reflexivity | reflexivity |].
    apply (ArchiveOpenFails Demo.corrupt "zip" (Error "invalid central directory")).
    reflexivity.
Defined.

(** C1, as stated, fails: when the download request for the archive throws,
    after [conclusion] was set, the handler throws that error. *)
Lemma download_failure_fails_the_dispatch :
  outputs_of "conclusion" (trace (handler Demo.env Demo.offline Demo.input))
  = [JString "success"] /\
  last (requests (trace (handler Demo.env Demo.offline Demo.input)))
    (dispatchRequest Demo.input)
  = downloadRequest Demo.input (mkArtifact "result" 3) /\
  completion (handler Demo.env Demo.offline Demo.input)
  = Throw (mkJsError "HttpError" "Server Error") /\
  completion (handler Demo.env Demo.offline Demo.input) <> Ok tt.
Proof. repeat split. discriminate. Qed.

Lemma falsy_document_witness :
  warnings (trace (handler Demo.env Demo.remote Demo.input))
  = ["No JSON file found inside output artifact ZIP"].
Proof.
  refine (proj1 (proj2 (proj2
            (falsy_document_counts_as_missing Demo.env Demo.remote Demo.input
               "ghp_token" Demo.discovery Demo.polling Demo.discovered
               Demo.completedRun "result" [mkArtifact "result" 3]
               _ _ _ _ _ _ _ _
               (mkArtifact "result" 3) "zip" Demo.archive
               (mkZipFile "result.json" (Ok "0")) "0" (JNumber 0%float)
               _ _ _ _ _ _ _)))).
  - split; [reflexivity | discriminate].
  - reflexivity.
  - reflexivity.
  - reflexivity.
  - reflexivity.
  - reflexivity.
  - discriminate.
  - reflexivity.
  - reflexivity.
  - reflexivity.
  - reflexivity.
  - reflexivity.
  - reflexivity.
  - reflexivity.
  - reflexivity.
Defined.

(** ** The page of five *)

Lemma calls_zero_In (kind : Request -> bool) (t : list Event) (r : Request) :
  calls kind t = 0%nat -> In r (requests t) -> kind r = false.
Proof.
  unfold calls. intros H Hin. apply length_zero_iff_nil in H.
  destruct (kind r) eqn:Hk; [| reflexivity].
  assert (Hf : In r (filter kind (requests t))) by (apply filter_In; now split).
  rewrite H in Hf. destruct Hf.
Qed.

(** Whatever the remote side does, the listings the handler asks for while
    waiting are all the same request. *)
Lemma awaitCompletion_listing_requests (w : World) (input : Input) (r : Request) :
  In r (requests (trace (awaitCompletion w input))) ->
  isListRuns r = true ->
  r = listRunsRequest input.
Proof.
  destruct (findWorkflowRun w input maxRunPollAttempts 0) as [t [[wr |] | e]] eqn:Hfind;
    pose proof (loopEvent_requests _ _ (found_trace _ _ _ _ _ _ Hfind)) as Ht;
    rewrite Forall_forall in Ht.
  - destruct (awaitCompletion_after_found w input t wr Hfind) as (rest & -> & Hrest).
    change (LoggerInfo ?m :: ?l) with ([LoggerInfo m] ++ l).
    rewrite !requests_app. cbn [requests foundEvents].
    intros Hin Hr. rewrite !in_app_iff in Hin.
    destruct Hin as [[] | [Hin | [[] | Hin]]]; [now apply Ht |].
    rewrite (calls_zero_In _ _ _ Hrest Hin) in Hr. discriminate.
  - rewrite (awaitCompletion_not_found w input t Hfind). cbn [trace fst requests].
    intros Hin _. now apply Ht.
  - rewrite (awaitCompletion_list_fails w input t e Hfind). cbn [trace fst requests].
    intros Hin _. now apply Ht.
Qed.

(** C10, as stated, fails: the dispatched run is held by the service but is
    not among the five runs of any listing, and yet the handler does not throw
    the run-not-found error: it goes on with another run on the same ref. *)
Lemma hidden_run_without_run_not_found :
  In Demo.dispatched Demo.backlog /\
  head_branch Demo.dispatched = Some (branchOrTagName Demo.input) /\
  ~ In Demo.dispatched (firstn 5 Demo.backlog) /\
  listWorkflowRuns (Demo.service Demo.backlog) 0 (listRunsRequest Demo.input)
  = Ok (firstn 5 Demo.backlog) /\
  completion (handler Demo.env (Demo.service Demo.backlog) Demo.input) = Ok tt /\
  completion (handler Demo.env (Demo.service Demo.backlog) Demo.input)
  <> Throw RunNotFoundError.
Proof.
  repeat split; try discriminate.
  - do 5 right. now left.
  - intros H. repeat (destruct H as [H | H]; [discriminate H |]). destruct H.
Qed.

(** C10, amended.  The handler asks every listing for five runs.  Against a
    service that answers with the first [per_page] runs it holds, a run that
    is not among the first five of any of the twelve listings is never the
    run the handler finds; and when no run among the first five of any
    listing is on the requested ref, the handler throws the run-not-found
    error after twelve listings, whatever the service holds further down. *)
Theorem page_of_five_hides_runs (env : Env) (w : World) (input : Input) (tok : string)
  (held : nat -> list WorkflowRun) :
  credential env input tok ->
  triggered w input ->
  waitForCompletion input = Some true ->
  (forall i, (i < 12)%nat ->
     listWorkflowRuns w i (listRunsRequest input)
     = Ok (pageOf (listRunsRequest input) (held i))) ->
  let tr := trace (handler env w input) in
  (forall r, In r (requests tr) -> isListRuns r = true -> per_page_of r = Some 5) /\
  (forall hidden : WorkflowRun,
     (forall i, (i < 12)%nat -> ~ In hidden (firstn 5 (held i))) ->
     forall t found,
       findWorkflowRun w input maxRunPollAttempts 0 = (t, Ok (Some found)) ->
       found <> hidden) /\
  ((forall i run, (i < 12)%nat -> In run (firstn 5 (held i)) ->
      head_branch run <> Some (branchOrTagName input)) ->
   completion (handler env w input) = Throw RunNotFoundError /\
   calls isListRuns tr = 12%nat).
Proof.
  intros Hc Hd Hw Hpaged. cbv zeta.
  rewrite (handler_wait env w input tok Hc Hd Hw). cbn [trace completion fst snd].
  split; [| split].
  - intros r Hin Hr. rewrite requests_app in Hin. apply in_app_or in Hin.
    destruct Hin as [Hin | Hin].
    + destruct Hin as [<- | []]. discriminate Hr.
    + now rewrite (awaitCompletion_listing_requests w input r Hin Hr).
  - intros hidden Hhidden t found Hfind ->.
    destruct (findWorkflowRun_listed w input _ _ _ _ Hfind) as (j & data & Hj & Hdata & Hsel).
    rewrite Hpaged in Hdata by (unfold maxRunPollAttempts in Hj; lia).
    injection Hdata as <-.
    apply selectRun_Some in Hsel. destruct Hsel as (Hin & _).
    apply (Hhidden j); [unfold maxRunPollAttempts in Hj; lia | exact Hin].
  - intros Hnone.
    rewrite (awaitCompletion_not_found w input
               (concat (repeat (discoveryRound input) 12))).
    + cbn [trace completion fst snd]. split; reflexivity.
    + apply (findWorkflowRun_exhausted w input 12 0). intros j Hj.
      exists (pageOf (listRunsRequest input) (held j)).
      split; [now apply Hpaged |]. intros run Hrun. now apply (Hnone j).
Qed.

Lemma page_of_five_witness :
  In Demo.dispatched Demo.elsewhere /\
  head_branch Demo.dispatched = Some (branchOrTagName Demo.input) /\
  completion (handler Demo.env (Demo.service Demo.elsewhere) Demo.input)
  = Throw RunNotFoundError.
Proof.
  split; [do 5 right; now left | split; [reflexivity |]].
  refine (proj1 (proj2 (proj2
            (page_of_five_hides_runs Demo.env (Demo.service Demo.elsewhere) Demo.input
               "ghp_token" (fun _ => Demo.elsewhere) _ _ _ _)) _)).
  - split; [reflexivity | discriminate].
  - reflexivity.
  - reflexivity.
  - intros i _. reflexivity.
  - intros i run _ H.
    repeat (destruct H as [<- | H]; [discriminate |]). destruct H.
Defined.

(** ** Every way the handler can go: the case analysis *)

Lemma extractOutput_Extracted (w : World) (zipData : Buffer) :
  Extracted w zipData (extractOutput w zipData).
Proof.
  destruct (unzipper_Open_buffer w zipData) as [files | e] eqn:Hopen.
  - rewrite (extractOutput_opened w zipData files Hopen), scanFiles_firstJson.
    destruct (firstJson files) as [file |] eqn:Hjson; [| apply ExtractedWarning].
    destruct (buffer file) as [content | e] eqn:Hread; [| apply ExtractedWarning].
    destruct (JSON_parse w content) as [v | e] eqn:Hparse; [| apply ExtractedWarning].
    rewrite bind_Ok. destruct (truthy v) eqn:Hv; [| apply ExtractedWarning].
    now apply (ExtractedOutputs w zipData files file content v).
  - unfold extractOutput, lift. rewrite Hopen. apply ExtractedWarning.
Qed.

Lemma fetchOutputArtifact_Fetched (w : World) (input : Input) (runId : Z) :
  Fetched w input runId (fetchOutputArtifact w input runId).
Proof.
  destruct (outputArtifactName input) as [name |] eqn:Hname.
  - destruct (String.eqb_spec name EmptyString) as [-> | Hne].
    + unfold fetchOutputArtifact. rewrite Hname. simpl.
      apply FetchedNothing. now rewrite Hname.
    + destruct (listWorkflowRunArtifacts w (listArtifactsRequest input runId))
        as [artifactsData | e] eqn:Hlist.
      * destruct (findArtifact name artifactsData) as [artifact |] eqn:Hfind.
        -- destruct (downloadArtifact w (downloadRequest input artifact))
             as [zipData | e] eqn:Hdl.
           ++ rewrite (fetchOutputArtifact_downloaded w input runId name artifactsData
                         Hname Hne Hlist artifact zipData Hfind Hdl).
              apply (FetchedArchive w input runId name artifactsData artifact zipData);
                trivial.
              apply extractOutput_Extracted.
           ++ rewrite (fetchOutputArtifact_download_fails w input runId name
                         artifactsData Hname Hne Hlist artifact e Hfind Hdl).
              now apply (FetchedDownloadFails w input runId name artifactsData).
        -- rewrite (fetchOutputArtifact_absent w input runId name artifactsData
                      Hname Hne Hlist Hfind).
           now apply (FetchedAbsent w input runId name artifactsData).
      * replace (fetchOutputArtifact w input runId)
          with (lookupEvents input runId name, @Throw unit e).
        { now apply FetchedListFails. }
        unfold fetchOutputArtifact. rewrite Hname.
        apply String.eqb_neq in Hne. rewrite Hne.
        unfold logger_info, emit, await. rewrite bind_Ok.
        fold (listArtifactsRequest input runId). rewrite Hlist. reflexivity.
  - unfold fetchOutputArtifact. rewrite Hname.
    apply FetchedNothing. now rewrite Hname.
Qed.

Lemma awaitCompletion_Awaited (w : World) (input : Input) :
  Awaited w input (awaitCompletion w input).
Proof.
  destruct (findWorkflowRun w input maxRunPollAttempts 0) as [t [[wr |] | e]] eqn:Hfind.
  - destruct (pollWorkflowRun w input (run_id wr) wr maxPollAttempts 0)
      as [t2 [[[] rd] | e]] eqn:Hpoll.
    + rewrite (awaitCompletion_completed w input t wr Hfind t2 rd Hpoll).
      now apply AwaitedCompleted.
    + rewrite (awaitCompletion_timeout w input t wr Hfind t2 rd Hpoll).
      now apply (AwaitedTimeout w input t t2 wr rd).
    + rewrite (awaitCompletion_poll_fails w input t wr Hfind t2 e Hpoll).
      now apply AwaitedPollFails.
  - rewrite (awaitCompletion_not_found w input t Hfind). now apply AwaitedNotFound.
  - rewrite (awaitCompletion_list_fails w input t e Hfind). now apply AwaitedListFails.
Qed.

Lemma handler_Handled (env : Env) (w : World) (input : Input) :
  Handled env w input (handler env w input).
Proof.
  destruct (truthy_string (resolveToken env (token input))) eqn:Ht.
  - destruct (resolveToken env (token input)) as [tok |] eqn:Hr; [| discriminate].
    assert (Hc : credential env input tok).
    { split; [assumption |]. simpl in Ht. apply negb_true_iff in Ht.
      now apply String.eqb_neq. }
    destruct (createWorkflowDispatch w (dispatchRequest input)) as [[] | e] eqn:Hd.
    + destruct (waitForCompletion input) as [[] |] eqn:Hw.
      * rewrite (handler_wait env w input tok Hc Hd Hw). now apply HandledWaited.
      * rewrite (handler_no_wait env w input tok Hc Hd (or_intror Hw)).
        apply HandledNoWait; auto.
      * rewrite (handler_no_wait env w input tok Hc Hd (or_introl Hw)).
        apply HandledNoWait; auto.
    + rewrite (handler_dispatch_fails env w input tok e Hc Hd).
      now apply HandledDispatchFails.
  - rewrite (handler_no_token env w input Ht). now apply HandledNoToken.
Qed.

(** ** The loops, whatever the remote side does *)

Lemma Forall_eq_repeat {A : Type} (x : A) (l : list A) :
  Forall (fun y => y = x) l -> l = repeat x (List.length l).
Proof. induction 1 as [| y l -> _ IH]; simpl; [reflexivity | now rewrite <- IH]. Qed.

Section Loops.

Variable w : World.
Variable input : Input.

(** At most one listing and one delay per iteration, and a listing first. *)
Lemma findWorkflowRun_bounds (n i : nat) :
  (List.length (timers (trace (findWorkflowRun w input n i)))
   <= List.length (requests (trace (findWorkflowRun w input n i))) <= n)%nat /\
  (n <> 0%nat -> 1 <= List.length (requests (trace (findWorkflowRun w input n i))))%nat.
Proof.
  revert i. induction n as [| n IH]; intros i; [simpl; split; [lia | congruence] |].
  cbn [findWorkflowRun]. unfold await.
  destruct (listWorkflowRuns w i (listRunsRequest input)) as [data | e];
    [| simpl; lia].
  rewrite bind_Ok.
  destruct (selectRun (branchOrTagName input) data) as [r |]; [simpl; lia |].
  unfold logger_info, setTimeout, emit. rewrite !bind_Ok.
  cbn [trace fst]. destruct (IH (S i)) as [IH1 _].
  rewrite !requests_app, !timers_app, !length_app. simpl. lia.
Qed.

(** A discovery that throws throws what a listing threw. *)
Lemma findWorkflowRun_throws (n i : nat) (t : list Event) (e : JsError) :
  findWorkflowRun w input n i = (t, Throw e) ->
  exists k, (i <= k < i + n)%nat /\ listWorkflowRuns w k (listRunsRequest input) = Throw e.
Proof.
  revert i t. induction n as [| n IH]; intros i t; [discriminate |].
  cbn [findWorkflowRun]. unfold await.
  destruct (listWorkflowRuns w i (listRunsRequest input)) as [data | e'] eqn:Hdata.
  - rewrite bind_Ok.
    destruct (selectRun (branchOrTagName input) data) as [r |]; [discriminate |].
    unfold logger_info, setTimeout, emit. rewrite !bind_Ok.
    cbn [trace completion fst snd]. intros [= _ E].
    destruct (IH (S i) (trace (findWorkflowRun w input n (S i)))) as (k & Hk & Hthrow).
    + rewrite (M_eta (findWorkflowRun w input n (S i))) at 1. now rewrite E.
    + exists k. split; [lia | assumption].
  - intros [= _ <-]. exists i. split; [lia | assumption].
Qed.

(** A listing that throws ends the discovery at once. *)
Lemma findWorkflowRun_rejected (n i k : nat) (e : JsError) :
  (k < n)%nat ->
  (forall j, (j < k)%nat -> noMatchAt w input (i + j)) ->
  listWorkflowRuns w (i + k) (listRunsRequest input) = Throw e ->
  findWorkflowRun w input n i =
  (concat (repeat (discoveryRound input) k) ++ [Call (listRunsRequest input)], Throw e).
Proof.
  revert i k. induction n as [| n IH]; intros i k Hk Hno Hthrow; [lia |].
  destruct k as [| k].
  - rewrite Nat.add_0_r in Hthrow.
    cbn [findWorkflowRun]. unfold await. now rewrite Hthrow.
  - destruct (Hno 0%nat) as (data0 & Hdata0 & Hno0); [lia |].
    rewrite Nat.add_0_r in Hdata0.
    cbn [findWorkflowRun]. unfold await. rewrite Hdata0, bind_Ok.
    rewrite (selectRun_None _ _ Hno0).
    rewrite (IH (S i) k).
    + reflexivity.
    + lia.
    + intros j Hj. replace (S i + j)%nat with (i + S j)%nat by lia. apply Hno. lia.
    + replace (S i + k)%nat with (i + S k)%nat by lia. exact Hthrow.
Qed.

Variable runId : Z.
Variable workflowRun : WorkflowRun.

(** At most one status query and one delay per iteration, and a query first. *)
Lemma pollWorkflowRun_bounds (n attempt : nat) :
  (List.length (timers (trace (pollWorkflowRun w input runId workflowRun n attempt)))
   <= List.length (requests (trace (pollWorkflowRun w input runId workflowRun n attempt)))
   <= n)%nat /\
  (n <> 0%nat ->
   1 <= List.length
          (requests (trace (pollWorkflowRun w input runId workflowRun n attempt))))%nat.
Proof.
  revert attempt. induction n as [| n IH]; intros attempt;
    [simpl; split; [lia | congruence] |].
  cbn [pollWorkflowRun]. unfold await.
  destruct (getWorkflowRun w attempt _) as [run | e]; [| simpl; lia].
  rewrite bind_Ok.
  destruct (strict_eq (status run) "completed"); [simpl; lia |].
  unfold logger_info, setTimeout, emit. rewrite !bind_Ok.
  cbn [trace fst]. destruct (IH (S attempt)) as [IH1 _].
  rewrite !requests_app, !timers_app, !length_app. simpl. lia.
Qed.

(** A polling that throws throws what a status query threw. *)
Lemma pollWorkflowRun_throws (n attempt : nat) (t : list Event) (e : JsError) :
  pollWorkflowRun w input runId workflowRun n attempt = (t, Throw e) ->
  exists k, (attempt <= k < attempt + n)%nat /\
            getWorkflowRun w k (getRunRequest input runId) = Throw e.
Proof.
  revert attempt t. induction n as [| n IH]; intros attempt t; [discriminate |].
  cbn [pollWorkflowRun]. unfold await. fold (getRunRequest input runId).
  destruct (getWorkflowRun w attempt (getRunRequest input runId)) as [run | e'] eqn:Hrun.
  - rewrite bind_Ok.
    destruct (strict_eq (status run) "completed"); [discriminate |].
    unfold logger_info, setTimeout, emit. rewrite !bind_Ok.
    cbn [trace completion fst snd]. intros [= _ E].
    destruct (IH (S attempt)
                (trace (pollWorkflowRun w input runId workflowRun n (S attempt))))
      as (k & Hk & Hthrow).
    + rewrite (M_eta (pollWorkflowRun w input runId workflowRun n (S attempt))) at 1.
      now rewrite E.
    + exists k. split; [lia | assumption].
  - intros [= _ <-]. exists attempt. split; [lia | assumption].
Qed.

(** A polling that reports completion reports what a status query said. *)
Lemma pollWorkflowRun_reports (n attempt : nat) (t : list Event) (run : WorkflowRun) :
  pollWorkflowRun w input runId workflowRun n attempt = (t, Ok (true, run)) ->
  exists k, (attempt <= k < attempt + n)%nat /\
            getWorkflowRun w k (getRunRequest input runId) = Ok run /\
            status run = Some "completed".
Proof.
  revert attempt t. induction n as [| n IH]; intros attempt t; [discriminate |].
  cbn [pollWorkflowRun]. unfold await. fold (getRunRequest input runId).
  destruct (getWorkflowRun w attempt (getRunRequest input runId)) as [run' | e'] eqn:Hrun;
    [| discriminate].
  rewrite bind_Ok.
  destruct (strict_eq (status run') "completed") eqn:Hst.
  - intros [= _ <-]. exists attempt. apply strict_eq_true in Hst.
    repeat split; trivial; lia.
  - unfold logger_info, setTimeout, emit. rewrite !bind_Ok.
    cbn [trace completion fst snd]. intros [= _ E].
    destruct (IH (S attempt)
                (trace (pollWorkflowRun w input runId workflowRun n (S attempt))))
      as (k & Hk & Hgot).
    + rewrite (M_eta (pollWorkflowRun w input runId workflowRun n (S attempt))) at 1.
      now rewrite E.
    + exists k. split; [lia | assumption].
Qed.

(** A status query that throws ends the polling at once. *)
Lemma pollWorkflowRun_rejected (n attempt k : nat) (e : JsError) :
  (k < n)%nat ->
  (forall a, (a < k)%nat -> pendingAt w input runId (attempt + a)) ->
  getWorkflowRun w (attempt + k) (getRunRequest input runId) = Throw e ->
  exists msgs,
    List.length msgs = k /\
    pollWorkflowRun w input runId workflowRun n attempt =
    (concat (map (pollRound input runId) msgs) ++ [Call (getRunRequest input runId)],
     Throw e).
Proof.
  revert attempt k. induction n as [| n IH]; intros attempt k Hk Hpend Hthrow; [lia |].
  destruct k as [| k].
  - exists []. split; [reflexivity |].
    rewrite Nat.add_0_r in Hthrow.
    cbn [pollWorkflowRun]. unfold await. fold (getRunRequest input runId).
    now rewrite Hthrow.
  - destruct (Hpend 0%nat) as (run0 & Hrun0 & Hst0); [lia |].
    rewrite Nat.add_0_r in Hrun0. apply strict_eq_false in Hst0.
    destruct (IH (S attempt) k) as (msgs & Hlen & Hpoll).
    { lia. }
    { intros a Ha. replace (S attempt + a)%nat with (attempt + S a)%nat by lia.
      apply Hpend. lia. }
    { replace (S attempt + k)%nat with (attempt + S k)%nat by lia. exact Hthrow. }
    eexists (_ :: msgs). split; [simpl; now rewrite Hlen |].
    cbn [pollWorkflowRun]. unfold await. fold (getRunRequest input runId).
    rewrite Hrun0, bind_Ok, Hst0.
    unfold logger_info, setTimeout, emit. rewrite !bind_Ok, Hpoll. reflexivity.
Qed.

End Loops.

(** ** What the handler throws *)

(** Case analysis on how a computation of the handler ended. *)
Ltac cases_of characterisation computation :=
  let m := fresh "m" in
  let H := fresh "H" in
  generalize characterisation; generalize computation; intros m H; destruct H.

(** X1.  Whatever the remote side does, an error thrown by the handler is one
    of its own three (missing token, run not found, timed out) or the error
    with which one of its five requests was rejected; what opening the archive,
    reading an entry or parsing its text throws never surfaces. *)
Theorem thrown_errors_are_own_or_rejections (env : Env) (w : World) (input : Input)
  (e : JsError) :
  completion (handler env w input) = Throw e ->
  e = MissingCredentialError \/ e = RunNotFoundError \/ e = DispatchTimeoutError \/
  apiRejects w input e.
Proof.
  cases_of (handler_Handled env w input) (handler env w input);
    cbn [completion snd].
  - intros [= <-]. now left.
  - intros [= <-]. do 3 right. now left.
  - discriminate.
  - cases_of (awaitCompletion_Awaited w input) (awaitCompletion w input);
      cbn [completion snd].
    + intros [= <-]. do 3 right. right. left.
      destruct (findWorkflowRun_throws w input _ _ _ _ H2) as (k & Hk & Hthrow).
      exists k. split; [unfold maxRunPollAttempts in Hk; lia | assumption].
    + intros [= <-]. right. now left.
    + intros [= <-]. do 3 right. do 2 right. left.
      destruct (pollWorkflowRun_throws w input _ _ _ _ _ _ H3) as (k & Hk & Hthrow).
      exists k, (run_id workflowRun).
      split; [unfold maxPollAttempts in Hk; lia | assumption].
    + intros [= <-]. do 2 right. now left.
    + cases_of (fetchOutputArtifact_Fetched w input (run_id workflowRun))
        (fetchOutputArtifact w input (run_id workflowRun)); cbn [completion snd];
        try discriminate.
      * intros [= <-]. do 3 right. do 3 right. left. now exists (run_id workflowRun).
      * intros [= <-]. do 3 right. do 4 right. now exists artifact.
Qed.

Lemma thrown_errors_witness :
  Faults.httpError = MissingCredentialError \/
  Faults.httpError = RunNotFoundError \/
  Faults.httpError = DispatchTimeoutError \/
  apiRejects Faults.noArtifacts Demo.input Faults.httpError.
Proof.
  apply (thrown_errors_are_own_or_rejections Demo.env Faults.noArtifacts Demo.input
           Faults.httpError).
  reflexivity.
Defined.

(** ** What the handler gives to [ctx.output] and warns about *)

Lemma reachedEvents_app (tok : string) (input : Input) (t t2 : list Event)
  (workflowRun runData : WorkflowRun) (rest : list Event) :
  dispatchEvents tok input
    ++ (LoggerInfo "Waiting for workflow run to be created..." :: t
          ++ foundEvents workflowRun ++ t2 ++ conclusionEvents runData ++ rest)
  = reachedEvents tok input t workflowRun t2 runData ++ rest.
Proof. unfold reachedEvents. norm_trace. Qed.

(** The artifact phase sets [outputs] or warns, never both, and then returns. *)
Lemma Fetched_summary (w : World) (input : Input) (runId : Z) (m : M unit) :
  Fetched w input runId m ->
  outputs_of "conclusion" (trace m) = [] /\
  ((outputs_of "outputs" (trace m) = [] /\ warnings (trace m) = []) \/
   (exists msg pre,
      trace m = pre ++ [LoggerWarn msg] /\ warnings (trace m) = [msg] /\
      outputs_of "outputs" (trace m) = [] /\ completion m = Ok tt) \/
   (exists v content,
      outputs_of "outputs" (trace m) = [v] /\ warnings (trace m) = [] /\
      truthy v = true /\ JSON_parse w content = Ok v /\ completion m = Ok tt)).
Proof.
  intros [Hnone | name e Hname Hne Hlist | name artifactsData Hname Hne Hlist Hfind
          | name artifactsData artifact e Hname Hne Hlist Hfind Hdl
          | name artifactsData artifact zipData m' Hname Hne Hlist Hfind Hdl Hex];
    cbn [trace completion fst snd].
  - split; [reflexivity | left; split; reflexivity].
  - split; [reflexivity | left; split; reflexivity].
  - split; [reflexivity |]. right. left.
    exists (template ["Artifact '"; name; "' not found"]), (lookupEvents input runId name).
    repeat split.
  - split; [reflexivity | left; split; reflexivity].
  - destruct Hex as [msg | files file content v Hopen Hjson Hread Hparse Hv];
      cbn [trace fst].
    + split; [reflexivity |]. right. left.
      exists msg, (lookupEvents input runId name ++ [Call (downloadRequest input artifact)]).
      repeat split; rewrite <- ?app_assoc; reflexivity.
    + split; [reflexivity |]. right. right. exists v, content.
      repeat split; trivial.
Qed.

(** What the whole handler has set and warned about when it ends. *)
Lemma handler_summary (env : Env) (w : World) (input : Input) :
  let tr := trace (handler env w input) in
  (List.length (outputs_of "conclusion" tr) <= 1)%nat /\
  ((outputs_of "outputs" tr = [] /\ warnings tr = []) \/
   (exists msg pre,
      tr = pre ++ [LoggerWarn msg] /\ warnings tr = [msg] /\
      outputs_of "outputs" tr = [] /\ completion (handler env w input) = Ok tt /\
      List.length (outputs_of "conclusion" tr) = 1%nat) \/
   (exists v content,
      outputs_of "outputs" tr = [v] /\ warnings tr = [] /\
      truthy v = true /\ JSON_parse w content = Ok v /\
      completion (handler env w input) = Ok tt /\
      List.length (outputs_of "conclusion" tr) = 1%nat)).
Proof.
  cbv zeta. cases_of (handler_Handled env w input) (handler env w input);
    cbn [trace completion fst snd].
  - split; [simpl; lia | left; split; reflexivity].
  - split; [simpl; lia | left; split; reflexivity].
  - split; [simpl; lia | left; split; reflexivity].
  - cases_of (awaitCompletion_Awaited w input) (awaitCompletion w input);
      cbn [trace completion fst snd].
    + pose proof (found_trace _ _ _ _ _ _ H2) as Ht.
      change (LoggerInfo ?x :: ?l) with ([LoggerInfo x] ++ l).
      rewrite !outputs_of_app, !warnings_app.
      rewrite !(loopEvent_outputs _ _ _ Ht), (loopEvent_warnings _ _ Ht).
      split; [simpl; lia | left; split; reflexivity].
    + pose proof (found_trace _ _ _ _ _ _ H2) as Ht.
      change (LoggerInfo ?x :: ?l) with ([LoggerInfo x] ++ l).
      rewrite !outputs_of_app, !warnings_app.
      rewrite !(loopEvent_outputs _ _ _ Ht), (loopEvent_warnings _ _ Ht).
      split; [simpl; lia | left; split; reflexivity].
    + pose proof (found_trace _ _ _ _ _ _ H2) as Ht.
      pose proof (polled_trace _ _ _ _ _ _ _ _ H3) as Ht2.
      change (LoggerInfo ?x :: ?l) with ([LoggerInfo x] ++ l).
      rewrite !outputs_of_app, !warnings_app.
      rewrite !(loopEvent_outputs _ _ _ Ht), (loopEvent_warnings _ _ Ht).
      rewrite !(loopEvent_outputs _ _ _ Ht2), (loopEvent_warnings _ _ Ht2).
      split; [simpl; lia | left; split; reflexivity].
    + pose proof (found_trace _ _ _ _ _ _ H2) as Ht.
      pose proof (polled_trace _ _ _ _ _ _ _ _ H3) as Ht2.
      change (LoggerInfo ?x :: ?l) with ([LoggerInfo x] ++ l).
      rewrite !outputs_of_app, !warnings_app.
      rewrite !(loopEvent_outputs _ _ _ Ht), (loopEvent_warnings _ _ Ht).
      rewrite !(loopEvent_outputs _ _ _ Ht2), (loopEvent_warnings _ _ Ht2).
      split; [simpl; lia | left; split; reflexivity].
    + rewrite reachedEvents_app.
      destruct (reachedEvents_outputs w input tok t t2 workflowRun runData H2 H3)
        as (Hout & Hconc & Hwarn).
      destruct (Fetched_summary w input (run_id workflowRun) _
                  (fetchOutputArtifact_Fetched w input (run_id workflowRun)))
        as (Hfc & Hcases).
      rewrite !outputs_of_app, !warnings_app, Hout, Hconc, Hwarn, Hfc.
      split; [simpl; lia |].
      destruct Hcases as [[Ho Hw] | [(msg & pre & Htr & Hw & Ho & Hok)
                                    | (v & content & Ho & Hw & Hv & Hp & Hok)]].
      * left. now rewrite Ho, Hw.
      * right. left. exists msg, (reachedEvents tok input t workflowRun t2 runData ++ pre).
        rewrite Htr at 1. rewrite Ho, Hw, Hok, app_assoc. repeat split.
      * right. right. exists v, content. rewrite Ho, Hw, Hok. repeat split; trivial.
Qed.

(** X2.  Whatever the remote side does, [conclusion] is set at most once, and
    a value given to [ctx.output] as [outputs] is the only one, is truthy, is
    something [JSON.parse] returned, and comes with a normal return, a set
    [conclusion] and no warning. *)
Theorem outputs_are_set_once_and_truthy (env : Env) (w : World) (input : Input) :
  let tr := trace (handler env w input) in
  (List.length (outputs_of "conclusion" tr) <= 1)%nat /\
  forall v, In v (outputs_of "outputs" tr) ->
    outputs_of "outputs" tr = [v] /\
    truthy v = true /\
    (exists content, JSON_parse w content = Ok v) /\
    completion (handler env w input) = Ok tt /\
    warnings tr = [] /\
    List.length (outputs_of "conclusion" tr) = 1%nat.
Proof.
  cbv zeta. destruct (handler_summary env w input) as (Hconc & Hcases).
  split; [exact Hconc |]. intros v Hin.
  destruct Hcases as [[Ho _] | [(msg & pre & _ & _ & Ho & _)
                                | (v' & content & Ho & Hw & Hv & Hp & Hok & Hc)]].
  - rewrite Ho in Hin. destruct Hin.
  - rewrite Ho in Hin. destruct Hin.
  - rewrite Ho in Hin. destruct Hin as [<- | []].
    repeat split; trivial. now exists content.
Qed.

Lemma outputs_are_set_once_witness :
  outputs_of "outputs" (trace (handler Demo.env Faults.healthy Demo.input))
  = [JObject [("x", JNumber 1%float)]] /\
  completion (handler Demo.env Faults.healthy Demo.input) = Ok tt.
Proof.
  destruct (proj2 (outputs_are_set_once_and_truthy Demo.env Faults.healthy Demo.input)
              (JObject [("x", JNumber 1%float)]))
    as (Hout & _ & _ & Hok & _).
  - left. reflexivity.
  - split; assumption.
Defined.

(** X3.  Whatever the remote side does, the handler warns at most once; a
    warning is the last thing it does, and it then returns normally, with
    [conclusion] set and [outputs] not set. *)
Theorem a_warning_ends_a_successful_run (env : Env) (w : World) (input : Input) :
  let tr := trace (handler env w input) in
  forall msg, In msg (warnings tr) ->
    warnings tr = [msg] /\
    (exists before, tr = before ++ [LoggerWarn msg]) /\
    completion (handler env w input) = Ok tt /\
    outputs_of "outputs" tr = [] /\
    List.length (outputs_of "conclusion" tr) = 1%nat.
Proof.
  cbv zeta. intros msg Hin.
  destruct (handler_summary env w input) as (_ & Hcases).
  destruct Hcases as [[_ Hw] | [(msg' & pre & Htr & Hw & Ho & Hok & Hc)
                                | (v' & content & _ & Hw & _)]].
  - rewrite Hw in Hin. destruct Hin.
  - rewrite Hw in Hin. destruct Hin as [<- | []].
    repeat split; trivial. now exists pre.
  - rewrite Hw in Hin. destruct Hin.
Qed.

Lemma a_warning_witness :
  completion (handler Demo.env Demo.corrupt Demo.input) = Ok tt /\
  outputs_of "outputs" (trace (handler Demo.env Demo.corrupt Demo.input)) = [].
Proof.
  destruct (a_warning_ends_a_successful_run Demo.env Demo.corrupt Demo.input
              "Failed to extract or parse output artifact: Error: invalid central directory")
    as (_ & _ & Hok & Hout & _).
  - left. reflexivity.
  - split; assumption.
Defined.

(** ** The order and the number of requests and delays *)

Lemma found_requests (w : World) (input : Input) (n i : nat) (t : list Event)
  (r : Result (option WorkflowRun)) :
  findWorkflowRun w input n i = (t, r) ->
  exists l,
    requests t = repeat (listRunsRequest input) l /\
    (l <= n)%nat /\ (n <> 0%nat -> 1 <= l)%nat /\
    (List.length (timers t) <= l)%nat /\
    Forall (fun ms => ms = 5000) (timers t).
Proof.
  intros H. pose proof (found_trace _ _ _ _ _ _ H) as Ht.
  pose proof (findWorkflowRun_bounds w input n i) as Hb. rewrite H in Hb.
  cbn [trace fst] in Hb. destruct Hb as [[Hb1 Hb2] Hb3].
  exists (List.length (requests t)).
  split; [| split; [exact Hb2 | split; [exact Hb3 | split; [exact Hb1 |]]]].
  - apply Forall_eq_repeat, loopEvent_requests with (1 := Ht).
  - apply loopEvent_timers with (1 := Ht).
Qed.

Lemma polled_requests (w : World) (input : Input) (runId : Z) (runData : WorkflowRun)
  (n a : nat) (t : list Event) (r : Result (bool * WorkflowRun)) :
  pollWorkflowRun w input runId runData n a = (t, r) ->
  exists g,
    requests t = repeat (getRunRequest input runId) g /\
    (g <= n)%nat /\ (n <> 0%nat -> 1 <= g)%nat /\
    (List.length (timers t) <= g)%nat /\
    Forall (fun ms => ms = 5000) (timers t).
Proof.
  intros H. pose proof (polled_trace _ _ _ _ _ _ _ _ H) as Ht.
  pose proof (pollWorkflowRun_bounds w input runId runData n a) as Hb. rewrite H in Hb.
  cbn [trace fst] in Hb. destruct Hb as [[Hb1 Hb2] Hb3].
  exists (List.length (requests t)).
  split; [| split; [exact Hb2 | split; [exact Hb3 | split; [exact Hb1 |]]]].
  - apply Forall_eq_repeat, loopEvent_requests with (1 := Ht).
  - apply loopEvent_timers with (1 := Ht).
Qed.

(** The listing that finds the run is not followed by a delay. *)
Lemma found_timers (w : World) (input : Input) (n i : nat) (t : list Event)
  (r : WorkflowRun) :
  findWorkflowRun w input n i = (t, Ok (Some r)) ->
  (List.length (timers t) < n)%nat.
Proof.
  revert i t. induction n as [| n IH]; intros i t; [discriminate |].
  cbn [findWorkflowRun]. unfold await.
  destruct (listWorkflowRuns w i (listRunsRequest input)) as [data | e]; [| discriminate].
  rewrite bind_Ok.
  destruct (selectRun (branchOrTagName input) data) as [r' |].
  - intros [= <- _]. simpl. lia.
  - unfold logger_info, setTimeout, emit. rewrite !bind_Ok.
    cbn [trace completion fst snd]. intros [= <- E].
    assert (Hrec : (List.length (timers (trace (findWorkflowRun w input n (S i)))) < n)%nat).
    { apply (IH (S i)). rewrite (M_eta (findWorkflowRun w input n (S i))) at 1.
      now rewrite E. }
    simpl. lia.
Qed.

Lemma Fetched_requests (w : World) (input : Input) (runId : Z) (m : M unit) :
  Fetched w input runId m ->
  timers (trace m) = [] /\
  (requests (trace m) = [] \/
   requests (trace m) = [listArtifactsRequest input runId] \/
   exists artifact,
     requests (trace m) = [listArtifactsRequest input runId; downloadRequest input artifact]).
Proof.
  intros [Hnone | name e Hname Hne Hlist | name artifactsData Hname Hne Hlist Hfind
          | name artifactsData artifact e Hname Hne Hlist Hfind Hdl
          | name artifactsData artifact zipData m' Hname Hne Hlist Hfind Hdl Hex];
    cbn [trace completion fst snd].
  - split; [reflexivity | now left].
  - split; [reflexivity | right; now left].
  - split; [reflexivity | right; now left].
  - split; [reflexivity | right; right; now exists artifact].
  - destruct Hex; cbn [trace fst];
      (split; [reflexivity | right; right; now exists artifact]).
Qed.

Lemma totalDelay_fixed (t : list Event) :
  Forall (fun ms => ms = 5000) (timers t) ->
  totalDelay t = 5000 * Z.of_nat (List.length (timers t)).
Proof.
  unfold totalDelay. induction 1 as [| ms l -> _ IH]; [reflexivity |].
  cbn [fold_right List.length]. rewrite IH. lia.
Qed.

(** X4.  Whatever the remote side does, the requests of the handler follow
    one order: nothing, or the dispatch first, then at most 12 identical
    listings, then at most 60 status queries, all for one run and only after a
    listing, then at most the artifact listing of that run and one download,
    only after a status query. *)
Theorem requests_follow_the_protocol (env : Env) (w : World) (input : Input) :
  let rs := requests (trace (handler env w input)) in
  rs = [] \/
  exists (l g : nat) (runId : Z) (a : list Request),
    rs = dispatchRequest input
           :: repeat (listRunsRequest input) l
           ++ repeat (getRunRequest input runId) g ++ a /\
    (l <= 12)%nat /\ (g <= 60)%nat /\
    (g = 0%nat \/ 1 <= l)%nat /\
    (a = [] \/
     ((1 <= g)%nat /\
      (a = [listArtifactsRequest input runId] \/
       exists artifact,
         a = [listArtifactsRequest input runId; downloadRequest input artifact]))).
Proof.
  cbv zeta. cases_of (handler_Handled env w input) (handler env w input);
    cbn [trace completion fst snd].
  - now left.
  - right. exists 0%nat, 0%nat, 0, []. repeat split; auto; lia.
  - right. exists 0%nat, 0%nat, 0, []. repeat split; auto; lia.
  - right. rewrite requests_app. change (requests (dispatchEvents tok input))
      with [dispatchRequest input].
    cases_of (awaitCompletion_Awaited w input) (awaitCompletion w input);
      cbn [trace completion fst snd requests].
    + destruct (found_requests _ _ _ _ _ _ H2) as (l & -> & Hl & _).
      exists l, 0%nat, 0, [].
      split; [now rewrite !app_nil_r |]. repeat split; auto; lia.
    + destruct (found_requests _ _ _ _ _ _ H2) as (l & -> & Hl & _).
      exists l, 0%nat, 0, [].
      split; [now rewrite !app_nil_r |]. repeat split; auto; lia.
    + rewrite !requests_app.
      destruct (found_requests _ _ _ _ _ _ H2) as (l & -> & Hl & Hl1 & _).
      destruct (polled_requests _ _ _ _ _ _ _ _ H3) as (g & -> & Hg & _).
      exists l, g, (run_id workflowRun), [].
      split; [now rewrite !app_nil_r |].
      split; [exact Hl | split; [exact Hg | split; [| now left]]].
      right. apply Hl1. discriminate.
    + rewrite !requests_app.
      destruct (found_requests _ _ _ _ _ _ H2) as (l & -> & Hl & Hl1 & _).
      destruct (polled_requests _ _ _ _ _ _ _ _ H3) as (g & -> & Hg & _).
      exists l, g, (run_id workflowRun), [].
      split; [now rewrite !app_nil_r |].
      split; [exact Hl | split; [exact Hg | split; [| now left]]].
      right. apply Hl1. discriminate.
    + rewrite !requests_app.
      destruct (found_requests _ _ _ _ _ _ H2) as (l & -> & Hl & Hl1 & _).
      destruct (polled_requests _ _ _ _ _ _ _ _ H3) as (g & -> & Hg & Hg1 & _).
      destruct (Fetched_requests w input (run_id workflowRun) _
                  (fetchOutputArtifact_Fetched w input (run_id workflowRun)))
        as (_ & Hreq).
      exists l, g, (run_id workflowRun),
        (requests (trace (fetchOutputArtifact w input (run_id workflowRun)))).
      split; [reflexivity |].
      split; [exact Hl | split; [exact Hg | split]].
      * right. apply Hl1. discriminate.
      * destruct Hreq as [-> | Hreq]; [now left | right].
        split; [apply Hg1; discriminate | exact Hreq].
Qed.

(** X5.  Whatever the remote side does, every delay of the handler is 5000 ms
    and there are at most 71 of them: the handler never waits more than
    355 seconds in all. *)
Theorem waiting_is_bounded (env : Env) (w : World) (input : Input) :
  let tr := trace (handler env w input) in
  Forall (fun ms => ms = 5000) (timers tr) /\
  (List.length (timers tr) <= 71)%nat /\
  totalDelay tr <= 355000.
Proof.
  cbv zeta.
  assert (H : Forall (fun ms => ms = 5000) (timers (trace (handler env w input))) /\
              (List.length (timers (trace (handler env w input))) <= 71)%nat).
  { cases_of (handler_Handled env w input) (handler env w input);
      cbn [trace completion fst snd].
    - split; [constructor | simpl; lia].
    - split; [constructor | simpl; lia].
    - split; [constructor | simpl; lia].
    - rewrite timers_app. change (timers (dispatchEvents tok input)) with (@nil Z).
      rewrite app_nil_l.
      cases_of (awaitCompletion_Awaited w input) (awaitCompletion w input);
        cbn [trace completion fst snd timers].
      + destruct (found_requests _ _ _ _ _ _ H2) as (l & _ & Hl & _ & Hlen & Hall).
        split; [assumption | unfold maxRunPollAttempts in Hl; lia].
      + destruct (found_requests _ _ _ _ _ _ H2) as (l & _ & Hl & _ & Hlen & Hall).
        split; [assumption | unfold maxRunPollAttempts in Hl; lia].
      + rewrite !timers_app. cbn [timers foundEvents]. rewrite ?app_nil_l.
        destruct (found_requests _ _ _ _ _ _ H2) as (l & _ & _ & _ & _ & Hall).
        destruct (polled_requests _ _ _ _ _ _ _ _ H3) as (g & _ & Hg & _ & Hlen & Hall2).
        pose proof (found_timers _ _ _ _ _ _ H2) as Hlt.
        split; [now apply Forall_app |].
        rewrite length_app. unfold maxRunPollAttempts, maxPollAttempts in *. lia.
      + rewrite !timers_app. cbn [timers foundEvents]. rewrite ?app_nil_l.
        destruct (found_requests _ _ _ _ _ _ H2) as (l & _ & _ & _ & _ & Hall).
        destruct (polled_requests _ _ _ _ _ _ _ _ H3) as (g & _ & Hg & _ & Hlen & Hall2).
        pose proof (found_timers _ _ _ _ _ _ H2) as Hlt.
        split; [now apply Forall_app |].
        rewrite length_app. unfold maxRunPollAttempts, maxPollAttempts in *. lia.
      + rewrite !timers_app. cbn [timers foundEvents conclusionEvents]. rewrite ?app_nil_l.
        destruct (found_requests _ _ _ _ _ _ H2) as (l & _ & _ & _ & _ & Hall).
        destruct (polled_requests _ _ _ _ _ _ _ _ H3) as (g & _ & Hg & _ & Hlen & Hall2).
        pose proof (found_timers _ _ _ _ _ _ H2) as Hlt.
        destruct (Fetched_requests w input (run_id workflowRun) _
                    (fetchOutputArtifact_Fetched w input (run_id workflowRun)))
          as (-> & _).
        rewrite app_nil_r.
        split; [now apply Forall_app |].
        rewrite length_app. unfold maxRunPollAttempts, maxPollAttempts in *. lia. }
  destruct H as [Hall Hlen]. repeat split; trivial.
  rewrite (totalDelay_fixed _ Hall). lia.
Qed.

(** ** The artifact phase, case by case *)

Lemma extractOutput_truthy (w : World) (zipData : Buffer) (files : list ZipFile)
  (file : ZipFile) (content : Buffer) (v : JSValue) :
  unzipper_Open_buffer w zipData = Ok files ->
  firstJson files = Some file ->
  buffer file = Ok content ->
  JSON_parse w content = Ok v ->
  truthy v = true ->
  extractOutput w zipData =
  ([LoggerInfo "Output artifact JSON parsed successfully"; Output "outputs" v], Ok tt).
Proof.
  intros Hf Hj Hb Hp Hv.
  rewrite (extractOutput_opened _ _ _ Hf), scanFiles_firstJson, Hj, Hb, Hp.
  rewrite bind_Ok, Hv. reflexivity.
Qed.

Lemma findArtifact_first (name : string) (pre post : list Artifact) (artifact : Artifact) :
  (forall a, In a pre -> artifact_name a <> name) ->
  artifact_name artifact = name ->
  findArtifact name (pre ++ artifact :: post) = Some artifact.
Proof.
  intros Hpre Hname. unfold findArtifact.
  induction pre as [| a pre IH]; simpl.
  - apply String.eqb_eq in Hname. now rewrite Hname.
  - destruct (String.eqb_spec (artifact_name a) name) as [E | _].
    + exfalso. apply (Hpre a); [now left | exact E].
    + apply IH. intros a' Ha'. apply Hpre. now right.
Qed.

Section Completed.

Variable env : Env.
Variable w : World.
Variable input : Input.
Variable tok : string.
Variable t t2 : list Event.
Variable workflowRun runData : WorkflowRun.

(** The handler waits, has found the run and has seen it completed. *)
Hypothesis Hcredential : credential env input tok.
Hypothesis Htriggered : triggered w input.
Hypothesis Hwait : waitForCompletion input = Some true.
Hypothesis Hfound :
  findWorkflowRun w input maxRunPollAttempts 0 = (t, Ok (Some workflowRun)).
Hypothesis Hcompleted :
  pollWorkflowRun w input (run_id workflowRun) workflowRun maxPollAttempts 0
  = (t2, Ok (true, runData)).

(** X6.  Without an output artifact name, or with the empty string for one,
    the handler returns once the run has completed: [conclusion] is set,
    [outputs] is not, no artifact is listed or downloaded, nothing is warned
    about. *)
Theorem no_artifact_name_returns_at_completion :
  outputArtifactName input = None \/ outputArtifactName input = Some EmptyString ->
  let tr := trace (handler env w input) in
  handler env w input = (reachedEvents tok input t workflowRun t2 runData, Ok tt) /\
  outputs_of "conclusion" tr = [conclusionValue runData] /\
  outputs_of "outputs" tr = [] /\
  calls isListArtifacts tr = 0%nat /\ calls isDownload tr = 0%nat /\
  warnings tr = [].
Proof.
  intros Hname. cbv zeta.
  rewrite (handler_reached env w input tok t t2 workflowRun runData
             Hcredential Htriggered Hwait Hfound Hcompleted).
  assert (Hfetch : fetchOutputArtifact w input (run_id workflowRun) = ([], Ok tt)).
  { unfold fetchOutputArtifact. destruct Hname as [-> | ->]; reflexivity. }
  rewrite Hfetch. cbn [trace completion fst snd]. rewrite app_nil_r.
  destruct (reachedEvents_outputs w input tok t t2 workflowRun runData Hfound Hcompleted)
    as (Hout & Hconc & Hwarn).
  repeat split; trivial.
  - unfold reachedEvents. change (LoggerInfo ?x :: ?l) with ([LoggerInfo x] ++ l).
    rewrite !calls_app.
    rewrite (loopEvent_calls _ isListArtifacts _ (found_trace _ _ _ _ _ _ Hfound) eq_refl).
    rewrite (loopEvent_calls _ isListArtifacts _
               (polled_trace _ _ _ _ _ _ _ _ Hcompleted) eq_refl).
    reflexivity.
  - unfold reachedEvents. change (LoggerInfo ?x :: ?l) with ([LoggerInfo x] ++ l).
    rewrite !calls_app.
    rewrite (loopEvent_calls _ isDownload _ (found_trace _ _ _ _ _ _ Hfound) eq_refl).
    rewrite (loopEvent_calls _ isDownload _
               (polled_trace _ _ _ _ _ _ _ _ Hcompleted) eq_refl).
    reflexivity.
Qed.

Variable name : string.
Hypothesis Hname : outputArtifactName input = Some name.
Hypothesis Hnonempty : name <> EmptyString.

(** X7.  When the artifact listing is rejected, the handler throws that
    error: [conclusion] is already set, nothing is downloaded, [outputs] is
    not set and nothing is warned about. *)
Theorem artifact_listing_failure_propagates (e : JsError) :
  listWorkflowRunArtifacts w (listArtifactsRequest input (run_id workflowRun)) = Throw e ->
  let tr := trace (handler env w input) in
  completion (handler env w input) = Throw e /\
  outputs_of "conclusion" tr = [conclusionValue runData] /\
  outputs_of "outputs" tr = [] /\
  warnings tr = [] /\
  tr = reachedEvents tok input t workflowRun t2 runData
         ++ lookupEvents input (run_id workflowRun) name.
Proof.
  intros Hlist. cbv zeta.
  rewrite (handler_reached env w input tok t t2 workflowRun runData
             Hcredential Htriggered Hwait Hfound Hcompleted).
  assert (Hfetch : fetchOutputArtifact w input (run_id workflowRun)
                   = (lookupEvents input (run_id workflowRun) name, Throw e)).
  { unfold fetchOutputArtifact. rewrite Hname.
    apply String.eqb_neq in Hnonempty. rewrite Hnonempty.
    unfold logger_info, emit, await. rewrite bind_Ok.
    fold (listArtifactsRequest input (run_id workflowRun)). now rewrite Hlist. }
  rewrite Hfetch. cbn [trace completion fst snd].
  destruct (reachedEvents_outputs w input tok t t2 workflowRun runData Hfound Hcompleted)
    as (Hout & Hconc & Hwarn).
  rewrite !outputs_of_app, warnings_app, Hout, Hconc, Hwarn.
  repeat split.
Qed.

Variable artifactsData : list Artifact.
Hypothesis Hlisted :
  listWorkflowRunArtifacts w (listArtifactsRequest input (run_id workflowRun))
  = Ok artifactsData.

(** X8.  When the download of the artifact is rejected, the handler throws
    that error, with [conclusion] set, [outputs] not set and no warning: the
    download is not part of what the handler degrades gracefully. *)
Theorem download_failure_propagates (artifact : Artifact) (e : JsError) :
  findArtifact name artifactsData = Some artifact ->
  downloadArtifact w (downloadRequest input artifact) = Throw e ->
  let tr := trace (handler env w input) in
  completion (handler env w input) = Throw e /\
  outputs_of "conclusion" tr = [conclusionValue runData] /\
  outputs_of "outputs" tr = [] /\
  warnings tr = [] /\
  tr = reachedEvents tok input t workflowRun t2 runData
         ++ lookupEvents input (run_id workflowRun) name
         ++ [Call (downloadRequest input artifact)].
Proof.
  intros Hfind Hdl. cbv zeta.
  rewrite (handler_reached env w input tok t t2 workflowRun runData
             Hcredential Htriggered Hwait Hfound Hcompleted).
  rewrite (fetchOutputArtifact_download_fails w input _ name artifactsData
             Hname Hnonempty Hlisted artifact e Hfind Hdl).
  cbn [trace completion fst snd].
  destruct (reachedEvents_outputs w input tok t t2 workflowRun runData Hfound Hcompleted)
    as (Hout & Hconc & Hwarn).
  rewrite !outputs_of_app, !warnings_app, Hout, Hconc, Hwarn.
  repeat split.
Qed.

(** X9.  When the archive opens, its first [.json] entry can be read and its
    text parses to a truthy value, that value is set as [outputs], after
    [conclusion]; the handler returns and warns about nothing. *)
Theorem parsed_document_becomes_outputs (artifact : Artifact) (zipData : Buffer)
  (files : list ZipFile) (file : ZipFile) (content : Buffer) (v : JSValue) :
  findArtifact name artifactsData = Some artifact ->
  downloadArtifact w (downloadRequest input artifact) = Ok zipData ->
  unzipper_Open_buffer w zipData = Ok files ->
  firstJson files = Some file ->
  buffer file = Ok content ->
  JSON_parse w content = Ok v ->
  truthy v = true ->
  let tr := trace (handler env w input) in
  completion (handler env w input) = Ok tt /\
  outputs_of "outputs" tr = [v] /\
  outputs_of "conclusion" tr = [conclusionValue runData] /\
  warnings tr = [] /\
  exists before,
    tr = before ++ [Output "conclusion" (conclusionValue runData)]
           ++ lookupEvents input (run_id workflowRun) name
           ++ [Call (downloadRequest input artifact);
               LoggerInfo "Output artifact JSON parsed successfully";
               Output "outputs" v].
Proof.
  intros Hfind Hdl Hopen Hjson Hread Hparse Hv. cbv zeta.
  rewrite (handler_reached env w input tok t t2 workflowRun runData
             Hcredential Htriggered Hwait Hfound Hcompleted).
  rewrite (fetchOutputArtifact_downloaded w input _ name artifactsData
             Hname Hnonempty Hlisted artifact zipData Hfind Hdl).
  rewrite (extractOutput_truthy w zipData files file content v
             Hopen Hjson Hread Hparse Hv).
  cbn [trace completion fst snd].
  destruct (reachedEvents_outputs w input tok t t2 workflowRun runData Hfound Hcompleted)
    as (Hout & Hconc & Hwarn).
  rewrite !outputs_of_app, !warnings_app, Hout, Hconc, Hwarn.
  repeat split.
  exists (dispatchEvents tok input
            ++ LoggerInfo "Waiting for workflow run to be created..." :: t
            ++ foundEvents workflowRun ++ t2
            ++ [LoggerInfo
                  (template ["Workflow run completed with conclusion: ";
                             show_nullable (conclusion runData)])]).
  unfold reachedEvents, conclusionEvents. norm_trace.
Qed.

(** X10.  When several listed artifacts have the requested name, the one
    downloaded is the first of them in the listing, and it is the only
    download. *)
Theorem first_artifact_of_the_name_is_downloaded (pre post : list Artifact)
  (artifact : Artifact) :
  artifactsData = pre ++ artifact :: post ->
  (forall a, In a pre -> artifact_name a <> name) ->
  artifact_name artifact = name ->
  let tr := trace (handler env w input) in
  filter isDownload (requests tr) = [downloadRequest input artifact].
Proof.
  intros Hsplit Hpre Hart. cbv zeta.
  assert (Hfind : findArtifact name artifactsData = Some artifact).
  { rewrite Hsplit. now apply findArtifact_first. }
  rewrite (handler_reached env w input tok t t2 workflowRun runData
             Hcredential Htriggered Hwait Hfound Hcompleted).
  cbn [trace fst]. rewrite requests_app, filter_app.
  assert (Hreached :
    filter isDownload (requests (reachedEvents tok input t workflowRun t2 runData)) = []).
  { apply length_zero_iff_nil. fold (calls isDownload
      (reachedEvents tok input t workflowRun t2 runData)).
    unfold reachedEvents. change (LoggerInfo ?x :: ?l) with ([LoggerInfo x] ++ l).
    rewrite !calls_app.
    rewrite (loopEvent_calls _ isDownload _ (found_trace _ _ _ _ _ _ Hfound) eq_refl).
    rewrite (loopEvent_calls _ isDownload _
               (polled_trace _ _ _ _ _ _ _ _ Hcompleted) eq_refl).
    reflexivity. }
  rewrite Hreached.
  destruct (downloadArtifact w (downloadRequest input artifact)) as [zipData | e] eqn:Hdl.
  - rewrite (fetchOutputArtifact_downloaded w input _ name artifactsData
               Hname Hnonempty Hlisted artifact zipData Hfind Hdl).
    cbn [trace fst]. rewrite !requests_app, !filter_app.
    assert (Hex : filter isDownload (requests (trace (extractOutput w zipData))) = []).
    { destruct (extractOutput_Extracted w zipData); reflexivity. }
    rewrite Hex. reflexivity.
  - rewrite (fetchOutputArtifact_download_fails w input _ name artifactsData
               Hname Hnonempty Hlisted artifact e Hfind Hdl).
    reflexivity.
Qed.

End Completed.

Lemma no_artifact_name_witness :
  completion (handler Demo.env Demo.remote Faults.unnamed) = Ok tt /\
  completion (handler Demo.env Demo.remote Faults.emptyName) = Ok tt.
Proof.
  split.
  - refine (f_equal snd
              (proj1 (no_artifact_name_returns_at_completion Demo.env Demo.remote
                        Faults.unnamed "ghp_token" Demo.discovery Demo.polling
                        Demo.discovered Demo.completedRun _ _ _ _ _ _))).
    + split; [reflexivity | discriminate].
    + reflexivity.
    + reflexivity.
    + reflexivity.
    + reflexivity.
    + left. reflexivity.
  - refine (f_equal snd
              (proj1 (no_artifact_name_returns_at_completion Demo.env Demo.remote
                        Faults.emptyName "ghp_token" Demo.discovery Demo.polling
                        Demo.discovered Demo.completedRun _ _ _ _ _ _))).
    + split; [reflexivity | discriminate].
    + reflexivity.
    + reflexivity.
    + reflexivity.
    + reflexivity.
    + right. reflexivity.
Defined.

Lemma artifact_listing_failure_witness :
  completion (handler Demo.env Faults.noArtifacts Demo.input) = Throw Faults.httpError.
Proof.
  refine (proj1 (artifact_listing_failure_propagates Demo.env Faults.noArtifacts
                   Demo.input "ghp_token" Demo.discovery Demo.polling Demo.discovered
                   Demo.completedRun _ _ _ _ _ "result" _ _ Faults.httpError _)).
  - split; [reflexivity | discriminate].
  - reflexivity.
  - reflexivity.
  - reflexivity.
  - reflexivity.
  - reflexivity.
  - discriminate.
  - reflexivity.
Defined.

Lemma download_failure_witness :
  completion (handler Demo.env Demo.offline Demo.input) = Throw Faults.httpError.
Proof.
  refine (proj1 (download_failure_propagates Demo.env Demo.offline Demo.input
                   "ghp_token" Demo.discovery Demo.polling Demo.discovered
                   Demo.completedRun _ _ _ _ _ "result" _ _
                   [mkArtifact "result" 3] _ (mkArtifact "result" 3)
                   Faults.httpError _ _)).
  - split; [reflexivity | discriminate].
  - reflexivity.
  - reflexivity.
  - reflexivity.
  - reflexivity.
  - reflexivity.
  - discriminate.
  - reflexivity.
  - reflexivity.
  - reflexivity.
Defined.

Lemma parsed_document_witness :
  outputs_of "outputs" (trace (handler Demo.env Faults.healthy Demo.input))
  = [JObject [("x", JNumber 1%float)]].
Proof.
  refine (proj1 (proj2
            (parsed_document_becomes_outputs Demo.env Faults.healthy Demo.input
               "ghp_token" Demo.discovery Demo.polling Demo.discovered
               Demo.completedRun _ _ _ _ _ "result" _ _
               [mkArtifact "logs" 2; mkArtifact "result" 3; mkArtifact "result" 4] _
               (mkArtifact "result" 3) "zip" Demo.archive
               (mkZipFile "result.json" (Ok "0")) "0"
               (JObject [("x", JNumber 1%float)]) _ _ _ _ _ _ _))).
  - split; [reflexivity | discriminate].
  - reflexivity.
  - reflexivity.
  - reflexivity.
  - reflexivity.
  - reflexivity.
  - discriminate.
  - reflexivity.
  - reflexivity.
  - reflexivity.
  - reflexivity.
  - reflexivity.
  - reflexivity.
  - reflexivity.
  - reflexivity.
Defined.

Lemma first_artifact_witness :
  filter isDownload (requests (trace (handler Demo.env Faults.healthy Demo.input)))
  = [downloadRequest Demo.input (mkArtifact "result" 3)].
Proof.
  refine (first_artifact_of_the_name_is_downloaded Demo.env Faults.healthy Demo.input
            "ghp_token" Demo.discovery Demo.polling Demo.discovered
            Demo.completedRun _ _ _ _ _ "result" _ _
            [mkArtifact "logs" 2; mkArtifact "result" 3; mkArtifact "result" 4] _
            [mkArtifact "logs" 2] [mkArtifact "result" 4] (mkArtifact "result" 3)
            _ _ _).
  - split; [reflexivity | discriminate].
  - reflexivity.
  - reflexivity.
  - reflexivity.
  - reflexivity.
  - reflexivity.
  - discriminate.
  - reflexivity.
  - reflexivity.
  - intros a [<- | []]. discriminate.
  - reflexivity.
Defined.

(** ** Rejected requests *)

(** X11.  When the dispatch request is rejected, the handler throws that
    error right away: it is its only request, the success line is not logged,
    and no run is listed even if the handler was to wait. *)
Theorem dispatch_failure_propagates (env : Env) (w : World) (input : Input)
  (tok : string) (e : JsError) :
  credential env input tok ->
  createWorkflowDispatch w (dispatchRequest input) = Throw e ->
  let tr := trace (handler env w input) in
  completion (handler env w input) = Throw e /\
  requests tr = [dispatchRequest input] /\
  tr = removelast (dispatchEvents tok input) /\
  outputs_of "conclusion" tr = [].
Proof.
  intros Hc Hd. cbv zeta.
  rewrite (handler_dispatch_fails env w input tok e Hc Hd). repeat split.
Qed.

Lemma dispatch_failure_witness :
  completion (handler Demo.env Faults.noDispatch Demo.input) = Throw Faults.httpError.
Proof.
  refine (proj1 (dispatch_failure_propagates Demo.env Faults.noDispatch Demo.input
                   "ghp_token" Faults.httpError _ _)).
  - split; [reflexivity | discriminate].
  - reflexivity.
Defined.

(** X12.  A rejected listing is not retried: when the [k+1]-th listing is
    rejected after [k] listings without a run on the ref, the handler throws
    that error after exactly [k+1] listings and [k] delays, and queries no
    run. *)
Theorem listing_failure_is_not_retried (env : Env) (w : World) (input : Input)
  (tok : string) (k : nat) (e : JsError) :
  credential env input tok ->
  triggered w input ->
  waitForCompletion input = Some true ->
  (k < 12)%nat ->
  (forall i, (i < k)%nat -> noMatchAt w input i) ->
  listWorkflowRuns w k (listRunsRequest input) = Throw e ->
  let tr := trace (handler env w input) in
  completion (handler env w input) = Throw e /\
  calls isListRuns tr = S k /\
  timers tr = repeat 5000 k /\
  calls isGetRun tr = 0%nat /\
  tr = dispatchEvents tok input
         ++ LoggerInfo "Waiting for workflow run to be created..."
         :: concat (repeat (discoveryRound input) k) ++ [Call (listRunsRequest input)].
Proof.
  intros Hc Hd Hw Hk Hno Hthrow. cbv zeta.
  pose proof (findWorkflowRun_rejected w input maxRunPollAttempts 0 k e Hk Hno Hthrow)
    as Hfind.
  rewrite (handler_wait env w input tok Hc Hd Hw).
  rewrite (awaitCompletion_list_fails w input _ e Hfind).
  cbn [trace completion fst snd].
  pose proof (found_trace _ _ _ _ _ _ Hfind) as Ht.
  repeat split.
  - rewrite calls_app. change (LoggerInfo ?x :: ?l) with ([LoggerInfo x] ++ l).
    rewrite !calls_app, calls_discoveryRounds.
    change (calls isListRuns [Call (listRunsRequest input)]) with 1%nat.
    simpl. lia.
  - rewrite timers_app. change (LoggerInfo ?x :: ?l) with ([LoggerInfo x] ++ l).
    rewrite !timers_app, timers_discoveryRounds. simpl. now rewrite app_nil_r.
  - rewrite calls_app. change (LoggerInfo ?x :: ?l) with ([LoggerInfo x] ++ l).
    rewrite calls_app, (loopEvent_calls _ isGetRun _ Ht eq_refl). reflexivity.
Qed.

Lemma listing_failure_witness :
  completion (handler Demo.env Faults.noListing Demo.input) = Throw Faults.httpError.
Proof.
  refine (proj1 (listing_failure_is_not_retried Demo.env Faults.noListing Demo.input
                   "ghp_token" 1 Faults.httpError _ _ _ _ _ _)).
  - split; [reflexivity | discriminate].
  - reflexivity.
  - reflexivity.
  - lia.
  - intros i Hi. exists []. assert (i = 0%nat) as -> by lia.
    split; [reflexivity | intros run []].
  - reflexivity.
Defined.

(** X13.  A rejected status query is not retried: when the [k+1]-th query is
    rejected after [k] queries that saw the run pending, the handler throws
    that error after exactly [k+1] queries, sets no [conclusion] and lists no
    artifact. *)
Theorem status_failure_is_not_retried (env : Env) (w : World) (input : Input)
  (tok : string) (t : list Event) (workflowRun : WorkflowRun) (k : nat) (e : JsError) :
  credential env input tok ->
  triggered w input ->
  waitForCompletion input = Some true ->
  findWorkflowRun w input maxRunPollAttempts 0 = (t, Ok (Some workflowRun)) ->
  (k < 60)%nat ->
  (forall a, (a < k)%nat -> pendingAt w input (run_id workflowRun) a) ->
  getWorkflowRun w k (getRunRequest input (run_id workflowRun)) = Throw e ->
  let tr := trace (handler env w input) in
  completion (handler env w input) = Throw e /\
  calls isGetRun tr = S k /\
  calls isListArtifacts tr = 0%nat /\
  outputs_of "conclusion" tr = [].
Proof.
  intros Hc Hd Hw Hfound Hk Hpend Hthrow. cbv zeta.
  destruct (pollWorkflowRun_rejected w input (run_id workflowRun) workflowRun
              maxPollAttempts 0 k e Hk Hpend Hthrow) as (msgs & Hlen & Hpoll).
  rewrite (handler_wait env w input tok Hc Hd Hw).
  rewrite (awaitCompletion_poll_fails w input t workflowRun Hfound _ e Hpoll).
  cbn [trace completion fst snd].
  pose proof (found_trace _ _ _ _ _ _ Hfound) as Ht.
  pose proof (polled_trace _ _ _ _ _ _ _ _ Hpoll) as Ht2.
  repeat split.
  - rewrite calls_app. change (LoggerInfo ?x :: ?l) with ([LoggerInfo x] ++ l).
    rewrite !calls_app, calls_pollRounds, Hlen.
    rewrite (loopEvent_calls _ isGetRun _ Ht eq_refl).
    change (calls isGetRun [Call (getRunRequest input (run_id workflowRun))]) with 1%nat.
    simpl. lia.
  - rewrite calls_app. change (LoggerInfo ?x :: ?l) with ([LoggerInfo x] ++ l).
    rewrite !calls_app.
    rewrite (loopEvent_calls _ isListArtifacts _ Ht eq_refl).
    rewrite <- calls_app.
    rewrite (loopEvent_calls _ isListArtifacts _ Ht2 eq_refl). reflexivity.
  - rewrite outputs_of_app. change (LoggerInfo ?x :: ?l) with ([LoggerInfo x] ++ l).
    rewrite !outputs_of_app.
    rewrite (loopEvent_outputs _ _ _ Ht).
    rewrite <- outputs_of_app, (loopEvent_outputs _ _ _ Ht2). reflexivity.
Qed.

Lemma status_failure_witness :
  completion (handler Demo.env Faults.noStatus Demo.input) = Throw Faults.httpError.
Proof.
  refine (proj1 (status_failure_is_not_retried Demo.env Faults.noStatus Demo.input
                   "ghp_token" Demo.discovery Demo.discovered 1 Faults.httpError
                   _ _ _ _ _ _ _)).
  - split; [reflexivity | discriminate].
  - reflexivity.
  - reflexivity.
  - reflexivity.
  - lia.
  - intros a Ha. exists (Demo.polled 0). assert (a = 0%nat) as -> by lia.
    split; [reflexivity | discriminate].
  - reflexivity.
Defined.

(** ** Runs created at the same instant *)

(** The head of the sorted runs is the first of the newest. *)
Lemma hd_sort_first_newest (l : list WorkflowRun) (r : WorkflowRun) :
  hd_error (sort byCreatedAtDesc l) = Some r ->
  exists pre post,
    l = pre ++ r :: post /\
    (forall y, In y pre -> created_at y < created_at r) /\
    (forall y, In y post -> created_at y <= created_at r).
Proof.
  revert r. induction l as [| x l IH]; intros r; simpl; [discriminate |].
  rewrite hd_sort_insert.
  destruct (hd_error (sort byCreatedAtDesc l)) as [y |] eqn:Hhd.
  - destruct (IH y eq_refl) as (pre & post & Hl & Hpre & Hpost).
    unfold byCreatedAtDesc.
    destruct (created_at y - created_at x <=? 0) eqn:Hc; intros [= <-].
    + apply Z.leb_le in Hc. exists [], l. repeat split; [intros ? [] |].
      intros z Hz. rewrite Hl in Hz. apply in_app_or in Hz.
      destruct Hz as [Hz | [<- | Hz]].
      * specialize (Hpre z Hz). lia.
      * lia.
      * specialize (Hpost z Hz). lia.
    + apply Z.leb_gt in Hc. exists (x :: pre), post. rewrite Hl. repeat split.
      * intros z [<- | Hz]; [lia | now apply Hpre].
      * exact Hpost.
  - intros [= <-]. exists [], l. repeat split; [intros ? [] |].
    destruct l as [| x' l']; [intros ? [] |].
    simpl in Hhd. rewrite hd_sort_insert in Hhd. discriminate.
Qed.

Lemma filter_split {A : Type} (p : A -> bool) (l a b : list A) (x : A) :
  filter p l = a ++ x :: b ->
  exists a' b', l = a' ++ x :: b' /\ filter p a' = a /\ filter p b' = b.
Proof.
  revert a. induction l as [| y l IH]; intros a; simpl.
  - destruct a; discriminate.
  - destruct (p y) eqn:Hy.
    + destruct a as [| a0 a]; simpl; intros [= -> E].
      * exists [], l. repeat split. exact E.
      * destruct (IH a E) as (a' & b' & -> & Ha & Hb).
        exists (a0 :: a'), b'. simpl. rewrite Hy, Ha. repeat split. exact Hb.
    + intros E. destruct (IH a E) as (a' & b' & -> & Ha & Hb).
      exists (y :: a'), b'. simpl. rewrite Hy. repeat split; assumption.
Qed.

(** X14.  Among the listed runs on the requested ref the handler takes the
    first of the newest: every run on the ref listed before it is strictly
    older, every run on the ref listed after it is not newer. *)
Theorem ties_go_to_the_run_listed_first (b : string) (data : list WorkflowRun)
  (r : WorkflowRun) :
  selectRun b data = Some r ->
  exists pre post,
    data = pre ++ r :: post /\
    (forall y, In y pre -> head_branch y = Some b -> created_at y < created_at r) /\
    (forall y, In y post -> head_branch y = Some b -> created_at y <= created_at r).
Proof.
  unfold selectRun. intros H.
  destruct (hd_sort_first_newest _ _ H) as (pre & post & Hsplit & Hpre & Hpost).
  destruct (filter_split _ _ _ _ _ Hsplit) as (pre' & post' & -> & Hfpre & Hfpost).
  exists pre', post'. repeat split.
  - intros y Hy Hb. apply Hpre. rewrite <- Hfpre. apply filter_In.
    split; [assumption | now apply strict_eq_true].
  - intros y Hy Hb. apply Hpost. rewrite <- Hfpost. apply filter_In.
    split; [assumption | now apply strict_eq_true].
Qed.

Lemma ties_witness :
  exists pre post,
    Faults.tied = pre ++ Demo.run 2 30 "main" "queued" :: post /\
    (forall y, In y pre -> head_branch y = Some "main" ->
               created_at y < created_at (Demo.run 2 30 "main" "queued")) /\
    (forall y, In y post -> head_branch y = Some "main" ->
               created_at y <= created_at (Demo.run 2 30 "main" "queued")).
Proof.
  apply (ties_go_to_the_run_listed_first "main" Faults.tied
           (Demo.run 2 30 "main" "queued")).
  reflexivity.
Defined.

(** ** Where the conclusion comes from, and which run is polled *)

(** X15.  Whatever the remote side does, a value set as [conclusion] is the
    conclusion of a run that one of the status queries reported as completed
    ([null] when that run has none): it is never taken from a listing. *)
Theorem conclusion_comes_from_a_completed_status (env : Env) (w : World)
  (input : Input) (c : JSValue) :
  In c (outputs_of "conclusion" (trace (handler env w input))) ->
  exists (a : nat) (runId : Z) (run : WorkflowRun),
    (a < 60)%nat /\
    getWorkflowRun w a (getRunRequest input runId) = Ok run /\
    status run = Some "completed" /\
    c = conclusionValue run.
Proof.
  cases_of (handler_Handled env w input) (handler env w input);
    cbn [trace completion fst snd]; try (intros []).
  cases_of (awaitCompletion_Awaited w input) (awaitCompletion w input);
    cbn [trace completion fst snd];
    pose proof (found_trace _ _ _ _ _ _ H2) as Ht.
  - change (LoggerInfo ?x :: ?l) with ([LoggerInfo x] ++ l).
    rewrite !outputs_of_app, (loopEvent_outputs _ _ _ Ht). intros [].
  - change (LoggerInfo ?x :: ?l) with ([LoggerInfo x] ++ l).
    rewrite !outputs_of_app, (loopEvent_outputs _ _ _ Ht). intros [].
  - pose proof (polled_trace _ _ _ _ _ _ _ _ H3) as Ht2.
    change (LoggerInfo ?x :: ?l) with ([LoggerInfo x] ++ l).
    rewrite !outputs_of_app, (loopEvent_outputs _ _ _ Ht), (loopEvent_outputs _ _ _ Ht2).
    intros [].
  - pose proof (polled_trace _ _ _ _ _ _ _ _ H3) as Ht2.
    change (LoggerInfo ?x :: ?l) with ([LoggerInfo x] ++ l).
    rewrite !outputs_of_app, (loopEvent_outputs _ _ _ Ht), (loopEvent_outputs _ _ _ Ht2).
    intros [].
  - rewrite reachedEvents_app.
    destruct (reachedEvents_outputs w input tok t t2 workflowRun runData H2 H3)
      as (_ & Hconc & _).
    destruct (Fetched_summary w input (run_id workflowRun) _
                (fetchOutputArtifact_Fetched w input (run_id workflowRun)))
      as (Hfc & _).
    rewrite outputs_of_app, Hconc, Hfc. intros [<- | []].
    destruct (pollWorkflowRun_reports w input _ _ _ _ _ _ H3) as (a & Ha & Hrun & Hst).
    exists a, (run_id workflowRun), runData.
    repeat split; trivial. unfold maxPollAttempts in Ha. lia.
Qed.

Lemma conclusion_witness :
  exists (a : nat) (runId : Z) (run : WorkflowRun),
    (a < 60)%nat /\
    getWorkflowRun Demo.remote a (getRunRequest Demo.input runId) = Ok run /\
    status run = Some "completed" /\
    JString "success" = conclusionValue run.
Proof.
  apply (conclusion_comes_from_a_completed_status Demo.env Demo.remote Demo.input
           (JString "success")).
  left. reflexivity.
Defined.

(** X16.  Once a run is found, every status query and the artifact listing
    are for that run's id. *)
Theorem only_the_found_run_is_polled (env : Env) (w : World) (input : Input)
  (tok : string) (t : list Event) (workflowRun : WorkflowRun) (r : Request) :
  credential env input tok ->
  triggered w input ->
  waitForCompletion input = Some true ->
  findWorkflowRun w input maxRunPollAttempts 0 = (t, Ok (Some workflowRun)) ->
  In r (requests (trace (handler env w input))) ->
  (isGetRun r = true -> r = getRunRequest input (run_id workflowRun)) /\
  (isListArtifacts r = true -> r = listArtifactsRequest input (run_id workflowRun)).
Proof.
  intros Hc Hd Hw Hfound.
  rewrite (handler_wait env w input tok Hc Hd Hw). cbn [trace fst].
  pose proof (loopEvent_requests _ _ (found_trace _ _ _ _ _ _ Hfound)) as Ht.
  rewrite Forall_forall in Ht.
  assert (Hfetch : forall x,
    In x (requests (trace (fetchOutputArtifact w input (run_id workflowRun)))) ->
    (isGetRun x = true -> x = getRunRequest input (run_id workflowRun)) /\
    (isListArtifacts x = true -> x = listArtifactsRequest input (run_id workflowRun))).
  { intros x Hx.
    destruct (Fetched_requests w input (run_id workflowRun) _
                (fetchOutputArtifact_Fetched w input (run_id workflowRun)))
      as (_ & [E | [E | (artifact & E)]]); rewrite E in Hx.
    - destruct Hx.
    - destruct Hx as [<- | []]. split; [discriminate | reflexivity].
    - destruct Hx as [<- | [<- | []]]; split; try discriminate; reflexivity. }
  destruct (pollWorkflowRun w input (run_id workflowRun) workflowRun maxPollAttempts 0)
    as [t2 [[[] rd] | e]] eqn:Hp;
    pose proof (loopEvent_requests _ _ (polled_trace _ _ _ _ _ _ _ _ Hp)) as Ht2;
    rewrite Forall_forall in Ht2.
  - rewrite (awaitCompletion_completed w input t workflowRun Hfound t2 rd Hp).
    cbn [trace fst]. change (LoggerInfo ?x :: ?l) with ([LoggerInfo x] ++ l).
    rewrite !requests_app, !in_app_iff. cbn [requests foundEvents conclusionEvents].
    intros [[<- | []] | [[] | [Hin | [[] | [Hin | [[] | Hin]]]]]].
    + split; discriminate.
    + rewrite (Ht _ Hin). split; discriminate.
    + rewrite (Ht2 _ Hin). split; [reflexivity | discriminate].
    + now apply Hfetch.
  - rewrite (awaitCompletion_timeout w input t workflowRun Hfound t2 rd Hp).
    cbn [trace fst]. change (LoggerInfo ?x :: ?l) with ([LoggerInfo x] ++ l).
    rewrite !requests_app, !in_app_iff. cbn [requests foundEvents].
    intros [[<- | []] | [[] | [Hin | [[] | Hin]]]].
    + split; discriminate.
    + rewrite (Ht _ Hin). split; discriminate.
    + rewrite (Ht2 _ Hin). split; [reflexivity | discriminate].
  - rewrite (awaitCompletion_poll_fails w input t workflowRun Hfound t2 e Hp).
    cbn [trace fst]. change (LoggerInfo ?x :: ?l) with ([LoggerInfo x] ++ l).
    rewrite !requests_app, !in_app_iff. cbn [requests foundEvents].
    intros [[<- | []] | [[] | [Hin | [[] | Hin]]]].
    + split; discriminate.
    + rewrite (Ht _ Hin). split; discriminate.
    + rewrite (Ht2 _ Hin). split; [reflexivity | discriminate].
Qed.

Lemma only_the_found_run_witness :
  (isGetRun (GetWorkflowRun "backstage" "demo" 7) = true ->
   GetWorkflowRun "backstage" "demo" 7 = getRunRequest Demo.input (run_id Demo.discovered)) /\
  (isListArtifacts (GetWorkflowRun "backstage" "demo" 7) = true ->
   GetWorkflowRun "backstage" "demo" 7
   = listArtifactsRequest Demo.input (run_id Demo.discovered)).
Proof.
  apply (only_the_found_run_is_polled Demo.env Demo.remote Demo.input "ghp_token"
           Demo.discovery Demo.discovered (GetWorkflowRun "backstage" "demo" 7)).
  - split; [reflexivity | discriminate].
  - reflexivity.
  - reflexivity.
  - reflexivity.
  - vm_compute. do 3 right. now left.
Defined.

(** ** Which entry of the archive is read *)

Lemma length_string_append (p q : string) :
  String.length (p ++ q) = (String.length p + String.length q)%nat.
Proof. induction p as [| c p IH]; simpl; [reflexivity | now rewrite IH]. Qed.

Lemma substring_all (q : string) : substring 0 (String.length q) q = q.
Proof. induction q as [| c q IH]; simpl; [reflexivity | now rewrite IH]. Qed.

Lemma substring_skip (p q : string) (m : nat) :
  substring (String.length p) m (p ++ q) = substring 0 m q.
Proof. induction p as [| c p IH]; simpl; [reflexivity | exact IH]. Qed.

Lemma substring_split (s : string) (k : nat) :
  (k <= String.length s)%nat ->
  s = (substring 0 k s ++ substring k (String.length s - k) s)%string.
Proof.
  revert k. induction s as [| c s IH]; intros k Hk.
  - simpl in Hk. assert (k = 0%nat) as -> by lia. reflexivity.
  - destruct k as [| k].
    + simpl. now rewrite substring_all.
    + simpl in *. f_equal. apply IH. lia.
Qed.

(** [endsWith] holds exactly of the strings that are a prefix followed by the
    suffix. *)
Lemma endsWith_iff (s suffix : string) :
  endsWith s suffix = true <-> exists stem, s = (stem ++ suffix)%string.
Proof.
  unfold endsWith. rewrite andb_true_iff, Nat.leb_le, String.eqb_eq. split.
  - intros [Hlen Hsub].
    exists (substring 0 (String.length s - String.length suffix) s).
    pose proof (substring_split s (String.length s - String.length suffix)) as Hs.
    replace (String.length s - (String.length s - String.length suffix))%nat
      with (String.length suffix) in Hs by lia.
    rewrite Hsub in Hs. apply Hs. lia.
  - intros (stem & ->). rewrite length_string_append. split; [lia |].
    replace (String.length stem + String.length suffix - String.length suffix)%nat
      with (String.length stem) by lia.
    rewrite substring_skip. apply substring_all.
Qed.

(** X17.  The entry taken as the document is the first whose path is some
    stem followed by [.json]; the entries before it are skipped unread and the
    entries after it are never looked at, so that the scan of the archive is
    the scan of that entry alone. *)
Theorem first_json_entry_is_the_one_scanned (w : World) (files : list ZipFile)
  (file : ZipFile) :
  firstJson files = Some file <->
  exists pre post,
    files = pre ++ file :: post /\
    (exists stem, path file = (stem ++ ".json")%string) /\
    (forall f, In f pre -> ~ exists stem, path f = (stem ++ ".json")%string) /\
    scanFiles w files = scanFiles w [file].
Proof.
  unfold firstJson. split.
  - induction files as [| f files IH]; cbn [find]; [discriminate |].
    destruct (endsWith (path f) ".json") eqn:Hf.
    + intros [= <-]. exists [], files.
      split; [reflexivity | split; [| split]].
      * now apply endsWith_iff.
      * intros ? [].
      * cbn [scanFiles]. rewrite Hf. reflexivity.
    + intros H. destruct (IH H) as (pre & post & -> & Hstem & Hpre & Hscan).
      exists (f :: pre), post.
      split; [reflexivity | split; [exact Hstem | split]].
      * intros f' [<- | Hf'].
        -- intros Hex. apply endsWith_iff in Hex. congruence.
        -- now apply Hpre.
      * change ((f :: pre) ++ file :: post) with (f :: (pre ++ file :: post)).
        cbn [scanFiles]. rewrite Hf. exact Hscan.
  - intros (pre & post & -> & Hstem & Hpre & _).
    apply endsWith_iff in Hstem.
    induction pre as [| f pre IH]; simpl.
    + now rewrite Hstem.
    + destruct (endsWith (path f) ".json") eqn:Hf.
      * exfalso. apply (Hpre f); [now left | now apply endsWith_iff].
      * apply IH. intros f' Hf'. apply Hpre. now right.
Qed.

Lemma first_json_entry_witness :
  exists pre post,
    Demo.archive = pre ++ mkZipFile "result.json" (Ok "0") :: post /\
    (exists stem, path (mkZipFile "result.json" (Ok "0")) = (stem ++ ".json")%string) /\
    (forall f, In f pre -> ~ exists stem, path f = (stem ++ ".json")%string) /\
    scanFiles Demo.remote Demo.archive
    = scanFiles Demo.remote [mkZipFile "result.json" (Ok "0")].
Proof.
  apply (proj1 (first_json_entry_is_the_one_scanned Demo.remote Demo.archive
                  (mkZipFile "result.json" (Ok "0")))).
  reflexivity.
Defined.

(** The bound of 71 delays is reached: found at the twelfth listing, never
    completed. *)
Example waiting_bound_is_reached :
  totalDelay
    (trace (handler Demo.env
              (Demo.world (fun i => if (i <? 11)%nat then [] else [Demo.discovered])
                 (fun _ => Demo.discovered) (Ok "zip") (Ok Demo.archive) (Ok JNull))
              Demo.input))
  = 355000.
Proof. vm_compute. reflexivity. Qed.

(** ** A normal return after waiting *)

(** X18.  Whatever the remote side does, [conclusion] is set only by a
    handler that was asked to wait, and a handler that was asked to wait and
    returns normally has set it, exactly once. *)
Theorem conclusion_is_set_iff_waited_and_returned (env : Env) (w : World)
  (input : Input) :
  let tr := trace (handler env w input) in
  (outputs_of "conclusion" tr <> [] -> waitForCompletion input = Some true) /\
  (waitForCompletion input = Some true ->
   completion (handler env w input) = Ok tt ->
   exists c, outputs_of "conclusion" tr = [c]).
Proof.
  cbv zeta. cases_of (handler_Handled env w input) (handler env w input);
    cbn [trace completion fst snd].
  - split; [intros Hc; now contradiction Hc | discriminate].
  - split; [intros Hc; now contradiction Hc | discriminate].
  - split; [intros Hc; now contradiction Hc |].
    intros Hw. destruct H1 as [H1 | H1]; rewrite H1 in Hw; discriminate.
  - split; [intros _; assumption | intros _].
    cases_of (awaitCompletion_Awaited w input) (awaitCompletion w input);
      cbn [trace completion fst snd]; try discriminate.
    intros _. rewrite reachedEvents_app.
    destruct (reachedEvents_outputs w input tok t t2 workflowRun runData H2 H3)
      as (_ & Hconc & _).
    destruct (Fetched_summary w input (run_id workflowRun) _
                (fetchOutputArtifact_Fetched w input (run_id workflowRun)))
      as (Hfc & _).
    rewrite outputs_of_app, Hconc, Hfc. now exists (conclusionValue runData).
Qed.

Lemma conclusion_is_set_witness :
  exists c, outputs_of "conclusion" (trace (handler Demo.env Demo.remote Demo.input)) = [c].
Proof.
  apply (proj2 (conclusion_is_set_iff_waited_and_returned Demo.env Demo.remote Demo.input));
    reflexivity.
Defined.

(** ** The warnings and their causes *)

Lemma extractOutput_warning (w : World) (zipData : Buffer) (msg : string) :
  ArchiveWarning w zipData msg ->
  extractOutput w zipData = ([LoggerWarn msg], Ok tt).
Proof.
  intros [e He | files Hf Hnone | files file e Hf Hj Hb
          | files file content e Hf Hj Hb Hp | files file content v Hf Hj Hb Hp Hv].
  - unfold extractOutput, lift. rewrite He. reflexivity.
  - rewrite (extractOutput_opened _ _ _ Hf), scanFiles_firstJson, Hnone. reflexivity.
  - rewrite (extractOutput_opened _ _ _ Hf), scanFiles_firstJson, Hj, Hb. reflexivity.
  - rewrite (extractOutput_opened _ _ _ Hf), scanFiles_firstJson, Hj, Hb, Hp.
    reflexivity.
  - apply (extractOutput_falsy w zipData files file content v); assumption.
Qed.

(** X19.  The one warning of the artifact phase tells the cause: an artifact
    that is not listed is named; an archive that does not open, an entry that
    cannot be read and a text that does not parse give the failure message
    with the error's own text; an archive without a [.json] entry and a
    document that is falsy both give the no-JSON message. *)
Theorem warning_names_the_cause (env : Env) (w : World) (input : Input) (tok : string)
  (t t2 : list Event) (workflowRun runData : WorkflowRun) (name : string)
  (artifactsData : list Artifact) (msg : string) :
  credential env input tok ->
  triggered w input ->
  waitForCompletion input = Some true ->
  findWorkflowRun w input maxRunPollAttempts 0 = (t, Ok (Some workflowRun)) ->
  pollWorkflowRun w input (run_id workflowRun) workflowRun maxPollAttempts 0
  = (t2, Ok (true, runData)) ->
  outputArtifactName input = Some name ->
  name <> EmptyString ->
  listWorkflowRunArtifacts w (listArtifactsRequest input (run_id workflowRun))
  = Ok artifactsData ->
  ExtractionWarning w input name artifactsData msg ->
  warnings (trace (handler env w input)) = [msg] /\
  completion (handler env w input) = Ok tt.
Proof.
  intros Hc Hd Hw Hfound Hcompleted Hname Hne Hlisted Hwarn.
  rewrite (handler_reached env w input tok t t2 workflowRun runData
             Hc Hd Hw Hfound Hcompleted).
  destruct (reachedEvents_outputs w input tok t t2 workflowRun runData Hfound Hcompleted)
    as (_ & _ & Hquiet).
  cbn [trace completion fst snd]. rewrite warnings_app, Hquiet.
  destruct Hwarn as [Habsent | artifact zipData msg Hfind Hdl Harchive].
  - rewrite (fetchOutputArtifact_absent w input _ name artifactsData
               Hname Hne Hlisted Habsent).
    split; reflexivity.
  - rewrite (fetchOutputArtifact_downloaded w input _ name artifactsData
               Hname Hne Hlisted artifact zipData Hfind Hdl).
    rewrite (extractOutput_warning w zipData msg Harchive).
    split; reflexivity.
Qed.

Lemma warning_names_the_cause_witness :
  warnings (trace (handler Demo.env Demo.corrupt Demo.input))
  = [failureMessage (Error "invalid central directory")].
Proof.
  refine (proj1 (warning_names_the_cause Demo.env Demo.corrupt Demo.input "ghp_token"
                   Demo.discovery Demo.polling Demo.discovered Demo.completedRun
                   "result" [mkArtifact "result" 3]
                   (failureMessage (Error "invalid central directory"))
                   _ _ _ _ _ _ _ _ _)).
  - split; [reflexivity | discriminate].
  - reflexivity.
  - reflexivity.
  - reflexivity.
  - reflexivity.
  - reflexivity.
  - discriminate.
  - reflexivity.
  - apply (WarnArchive Demo.corrupt Demo.input "result" [mkArtifact "result" 3]
             (mkArtifact "result" 3) "zip"); [reflexivity | reflexivity |].
    apply (WarnOpen Demo.corrupt "zip" (Error "invalid central directory")).
    reflexivity.
Defined.

(** The failure message carries [Error.prototype.toString] of what was thrown. *)
Example failureMessage_of_a_syntax_error :
  failureMessage (mkJsError "SyntaxError" "Unexpected token } in JSON at position 1")
  = "Failed to extract or parse output artifact: SyntaxError: Unexpected token } in JSON at position 1".
Proof. reflexivity. Qed.
